(** * hive-streamlit-app: the surrogate reconstruction page

    A shallow embedding of [navigation/infer_page.py]: the
    [Reconstructor] class (XGBoost regressor + POD basis), the time
    series driver [generate_data] and the uq-toolkit configuration
    reader [get_parameters_from_config].

    Python exceptions are values of an error monad, the attributes of
    the [Reconstructor] object are an explicit state that every method
    call threads through, and numpy arrays are lists with the shape
    rules (slicing, squeeze, broadcasting) written out.  Floating point
    numbers are kept abstract: the development is parametric in a type
    of scalars with an addition, a multiplication and a maximum. *)

From Stdlib Require Import String ZArith Lia Bool Arith List Sorted.
Import ListNotations.

Set Implicit Arguments.

(* ===================================================================== *)
(** ** Python: exceptions, results, ordered dictionaries                 *)
(* ===================================================================== *)

Module Py.

Inductive exception : Type :=
| TypeError
| ValueError
| IndexError
| KeyError
| ZeroDivisionError
| UnboundLocalError
| FileNotFoundError
| XGBoostError
| NotImplementedError.

Inductive result (A : Type) : Type :=
| Ok (a : A)
| Raise (e : exception).

Arguments Ok {A} a.
Arguments Raise {A} e.

Definition bind {A B} (c : result A) (k : A -> result B) : result B :=
  match c with
  | Ok a => k a
  | Raise e => Raise e
  end.

(** [for x in xs: body], the loop variables being the state [s]; an
    exception raised by the body leaves the loop at once. *)
Fixpoint for_each {A S} (xs : list A) (body : A -> S -> result S) (s : S)
  : result S :=
  match xs with
  | [] => Ok s
  | x :: xs' => bind (body x s) (for_each xs' body)
  end.

(** An [OrderedDict] with string keys (what [hjson.load] returns for
    an object): the items in insertion order. *)
Definition odict (V : Type) : Type := list (string * V).

Definition keys {V} (d : odict V) : list string := map fst d.

Fixpoint lookup {V} (d : odict V) (k : string) : option V :=
  match d with
  | [] => None
  | (k', v) :: d' => if String.eqb k' k then Some v else lookup d' k
  end.

(** [d[k]] *)
Definition getitem {V} (d : odict V) (k : string) : result V :=
  match lookup d k with
  | Some v => Ok v
  | None => Raise KeyError
  end.

(** Python's two-argument [min] on integers. *)
Definition min (a b : Z) : Z := if (b <? a)%Z then b else a.

End Py.

Import Py.

Declare Scope py_scope.
Delimit Scope py_scope with py.
Notation "x <- c ;; k" := (Py.bind c (fun x => k))
  (at level 61, c at next level, right associativity) : py_scope.
Open Scope py_scope.

(* ===================================================================== *)
(** ** Scalars                                                           *)
(* ===================================================================== *)

(** The numbers stored in arrays.  [of_int] is the conversion of a
    Python integer that numpy and XGBoost apply when an integer meets
    floating point data. *)
Class Scalar (R : Type) : Type := {
  szero : R;
  sadd : R -> R -> R;
  smul : R -> R -> R;
  smax : R -> R -> R;
  of_int : Z -> R
}.

#[export] Instance Z_Scalar : Scalar Z := {|
  szero := 0%Z;
  sadd := Z.add;
  smul := Z.mul;
  smax := Z.max;
  of_int := fun z => z
|}.

(* ===================================================================== *)
(** ** numpy                                                             *)
(* ===================================================================== *)

Module Np.
Section Arrays.
Context {R : Type} `{Scalar R}.

(** A two-dimensional array: its rows, and the number of columns
    (which numpy keeps even when there is no row). *)
Record matrix : Type := Matrix {
  ncols : nat;
  rows : list (list R)
}.

Definition nrows (m : matrix) : nat := length (rows m).

Inductive ndarray : Type :=
| Arr0 (x : R)
| Arr1 (xs : list R)
| Arr2 (m : matrix).

(** [xs[:n]] on a Python sequence: a negative [n] counts from the
    end, and a bound beyond either end is clipped, never an error. *)
Definition slice_to {A} (xs : list A) (n : Z) : list A :=
  if (0 <=? n)%Z then firstn (Z.to_nat n) xs
  else firstn (length xs - Z.to_nat (- n)) xs.

(** [a[:n]] on an array slices the first axis; a zero-dimensional
    array cannot be indexed. *)
Definition getslice (a : ndarray) (n : Z) : result ndarray :=
  match a with
  | Arr0 _ => Raise IndexError
  | Arr1 xs => Ok (Arr1 (slice_to xs n))
  | Arr2 m => Ok (Arr2 (Matrix (ncols m) (slice_to (rows m) n)))
  end.

(** [len(a)]: the length of the first axis; undefined ("len() of
    unsized object") on a zero-dimensional array. *)
Definition len (a : ndarray) : result Z :=
  match a with
  | Arr0 _ => Raise TypeError
  | Arr1 xs => Ok (Z.of_nat (length xs))
  | Arr2 m => Ok (Z.of_nat (nrows m))
  end.

(** [a.squeeze()]: every axis of length one is removed. *)
Definition squeeze (a : ndarray) : ndarray :=
  match a with
  | Arr0 x => Arr0 x
  | Arr1 [x] => Arr0 x
  | Arr1 xs => Arr1 xs
  | Arr2 m =>
      match rows m with
      | [[x]] => Arr0 x
      | [r] => Arr1 r
      | rs => if Nat.eqb (ncols m) 1 then Arr1 (concat rs) else Arr2 m
      end
  end.

(** [np.array(a)] of something that already is an array. *)
Definition array (a : ndarray) : ndarray := a.

(** An elementwise binary operation on one-dimensional arrays, with
    numpy's broadcasting: equal lengths, or one side of length one. *)
Definition broadcast (op : R -> R -> R) (xs ys : list R)
  : result (list R) :=
  if Nat.eqb (length xs) (length ys) then
    Ok (map (fun p => op (fst p) (snd p)) (combine xs ys))
  else
    match xs, ys with
    | [x], _ => Ok (map (op x) ys)
    | _, [y] => Ok (map (fun x => op x y) xs)
    | _, _ => Raise ValueError
    end.

(** Column [j] of a list of rows. *)
Definition column (rs : list (list R)) (j : nat) : list R :=
  map (fun r => nth j r szero) rs.

(** The sum of the products of two equally long lists. *)
Definition inner (xs ys : list R) : R :=
  fold_left sadd (map (fun p => smul (fst p) (snd p)) (combine xs ys))
    szero.

(** [np.dot(m.T, w)] for a [k x P] matrix [m] and a vector [w]: the
    vector of length [P] whose entry [j] is the sum over the rows [i]
    of [m[i][j] * w[i]]; the shapes must agree. *)
Definition dot_T (m : matrix) (w : list R) : result (list R) :=
  if Nat.eqb (nrows m) (length w) then
    Ok (map (fun j => inner (column (rows m) j) w) (seq 0 (ncols m)))
  else Raise ValueError.

(** [a.max()] of a one-dimensional array; a zero-size array has no
    maximum. *)
Definition amax (xs : list R) : result R :=
  match xs with
  | [] => Raise ValueError
  | x :: xs' => Ok (fold_left smax xs' x)
  end.

(** [np.arange(start, stop, step)] on integers. *)
Definition arange (start stop step : Z) : result (list Z) :=
  if (step =? 0)%Z then Raise ZeroDivisionError
  else
    let n :=
      if (0 <? step)%Z then ((stop - start + step - 1) / step)%Z
      else ((start - stop - step - 1) / (- step))%Z in
    Ok (map (fun i => (start + Z.of_nat i * step)%Z)
            (seq 0 (Z.to_nat n))).

(** [np.c_[ts, vs]]: two sequences side by side, as rows of two
    entries; the integers of [ts] are converted. *)
Definition c_ (ts : list Z) (vs : list R) : result (list (R * R)) :=
  if Nat.eqb (length ts) (length vs) then
    Ok (combine (map of_int ts) vs)
  else Raise ValueError.

End Arrays.

Arguments matrix R : clear implicits.
Arguments ndarray R : clear implicits.

End Np.

Import Np.

(* ===================================================================== *)
(** ** The two libraries behind the surrogate                            *)
(* ===================================================================== *)

Module Xgb.
Section Booster.
Context {R : Type} `{Scalar R}.

(** A trained [xgb.Booster] is an opaque function from a row of
    features to a row of outputs. *)
Definition Booster : Type := list R -> list R.

(** [xgb.DMatrix(rows)] *)
Definition DMatrix (feature_rows : list (list R)) : list (list R) :=
  feature_rows.

(** [booster.predict(dmat)]: one output row per feature row; a
    single-output model gives a one-dimensional array, a multi-output
    model a two-dimensional one. *)
Definition predict (b : Booster) (dmat : list (list R)) : ndarray R :=
  let out := map b dmat in
  if forallb (fun r => Nat.eqb (length r) 1) out
  then Arr1 (concat out)
  else Arr2 (Matrix (length (hd [] out)) out).

End Booster.

Arguments Booster R : clear implicits.

End Xgb.

Module Pyssam.
Section Sam.
Context {R : Type} `{Scalar R}.

(** The part of a [pyssam.SAM] object that reconstruction reads: the
    standard deviation of every mode. *)
Record SAM : Type := { std : list R }.

(** Modelled from the spec: [SAM.morph_model] belongs to the pyssam
    package, which is not part of the repository.  It is the linear
    basis expansion of section 4.1, step 4,
    [mean + sum_i coefficient[i] * scale[i] * component_row[i]],
    over the first [num_modes] component rows and scales, computed
    with numpy's slicing, broadcasting and [np.dot].  Shape
    parameters with two axes are not part of the modelled fragment. *)
Definition morph_model (self : SAM) (mean_dataset_columnvector : list R)
    (pca_model_components : matrix R) (shape_parameters : ndarray R)
    (num_modes : Z) : result (list R) :=
  let components :=
    Matrix (ncols pca_model_components)
           (slice_to (rows pca_model_components) num_modes) in
  let pca_std := slice_to (std self) num_modes in
  weights <-
    match shape_parameters with
    | Arr0 x => Ok (map (smul x) pca_std)
    | Arr1 xs => broadcast smul xs pca_std
    | Arr2 _ => Raise ValueError
    end ;;
  scaled <- dot_T components weights ;;
  broadcast sadd mean_dataset_columnvector scaled.

End Sam.

Arguments SAM R : clear implicits.

End Pyssam.

Import Xgb Pyssam.

(* ===================================================================== *)
(** ** navigation/infer_page.py: Reconstructor                           *)
(* ===================================================================== *)

Section Reconstructor.
Context {R : Type} `{Scalar R}.

(** The attributes of a [Reconstructor] object. *)
Record Reconstructor : Type := {
  xgb_model : Booster R;
  sam_obj : SAM R;
  mean_dataset_columnvector : list R;
  pca_model_components : matrix R
}.

(** The content of [pod_data.npz]. *)
Record npzfile : Type := {
  npz_mean : list R;
  npz_pca_components : matrix R;
  npz_pca_std : list R
}.

(** The files the page reads, by path. *)
Record filesystem : Type := {
  xgb_files : string -> option (Booster R);
  npz_files : string -> option npzfile
}.

(** [_load_xgb_regressor] *)
Definition _load_xgb_regressor (fs : filesystem) (xgb_fname : string)
  : result (Booster R) :=
  match xgb_files fs xgb_fname with
  | Some b => Ok b
  | None => Raise XGBoostError
  end.

(** [_load_pyssam]: the placeholder [SAM] object only ever has its
    [std] read, and that is overwritten from the archive. *)
Definition _load_pyssam (fs : filesystem) (pyssam_fname : string)
  : result (SAM R * list R * matrix R) :=
  match npz_files fs pyssam_fname with
  | Some npz =>
      Ok ({| std := npz_pca_std npz |}, npz_mean npz,
          npz_pca_components npz)
  | None => Raise FileNotFoundError
  end.

(** [Reconstructor.__init__] *)
Definition Reconstructor_init (fs : filesystem)
    (xgb_fname pod_coefs_fname : string) : result Reconstructor :=
  b <- _load_xgb_regressor fs xgb_fname ;;
  p <- _load_pyssam fs pod_coefs_fname ;;
  let '(sam, mean, comps) := p in
  Ok {| xgb_model := b; sam_obj := sam;
        mean_dataset_columnvector := mean;
        pca_model_components := comps |}.

(** Methods run on an object and leave an object behind, whether
    they return or raise. *)
Definition method (A : Type) : Type :=
  Reconstructor -> result A * Reconstructor.

Definition mret {A} (a : A) : method A := fun self => (Ok a, self).

Definition mbind {A B} (c : method A) (k : A -> method B) : method B :=
  fun self =>
    match c self with
    | (Ok a, self') => k a self'
    | (Raise e, self') => (Raise e, self')
    end.

(** Reading an attribute of [self]. *)
Definition attr {A} (f : Reconstructor -> A) : method A :=
  fun self => (Ok (f self), self).

(** A computation that does not touch the object. *)
Definition pure {A} (c : result A) : method A := fun self => (c, self).

(** What [reconstruct_with_xgboost] returns: the field, or the value
    a reduction made of it. *)
Inductive recon_value : Type :=
| FieldV (field : list R)
| ScalarV (x : R).

Notation "x <~ c ;; k" := (mbind c (fun x => k))
  (at level 61, c at next level, right associativity).

(** Lines 126-127: the prediction for the one row of features,
    squeezed. *)
Definition predicted_coefs (t : R) (param_list : list R)
  : method (ndarray R) :=
  model <~ attr xgb_model ;;
  let feat_mat := DMatrix [t :: param_list] in
  mret (squeeze (array (predict model feat_mat))).

(** Line 130: [min(len(pod_coefs), num_modes)]. *)
Definition clamped_modes (pod_coefs : ndarray R) (num_modes : Z)
  : result Z :=
  n <- len pod_coefs ;;
  Ok (Py.min n num_modes).

(** [reconstruct_with_xgboost] *)
Definition reconstruct_with_xgboost (t : R) (param_list : list R)
    (reduction : option (list R -> result R)) (num_modes : Z)
  : method recon_value :=
  pod_coefs <~ predicted_coefs t param_list ;;
  num_modes <~ pure (clamped_modes pod_coefs num_modes) ;;
  sam <~ attr sam_obj ;;
  mean <~ attr mean_dataset_columnvector ;;
  comps <~ attr pca_model_components ;;
  coefs <~ pure (getslice pod_coefs num_modes) ;;
  recon_field <~ pure (morph_model sam mean comps coefs num_modes) ;;
  match reduction with
  | Some f => v <~ pure (f recon_field) ;; mret (ScalarV v)
  | None => mret (FieldV recon_field)
  end.

(** [v.max()] on what a reconstruction returned. *)
Definition value_max (v : recon_value) : result R :=
  match v with
  | FieldV field => amax field
  | ScalarV x => Ok x
  end.

(** One turn of the loop of [generate_data]; the loop variables are
    the model object, [out_temp] and [data_out] (unbound before the
    first turn). *)
Definition generate_step (coeff_list : list R) (num_modes : Z) (t : Z)
    (s : Reconstructor * list R * option recon_value)
  : result (Reconstructor * list R * option recon_value) :=
  let '(recon_model, out_temp, _) := s in
  let '(r, recon_model') :=
    reconstruct_with_xgboost (of_int t) coeff_list None num_modes
      recon_model in
  data_out <- r ;;
  m <- value_max data_out ;;
  Ok (recon_model', out_temp ++ [m], Some data_out).

(** [generate_data] *)
Definition generate_data (fs : filesystem) (coeff_list : list R)
    (xgb_file pod_file : string) (num_modes : Z)
  : result (list (R * R) * recon_value) :=
  recon_model <- Reconstructor_init fs xgb_file pod_file ;;
  time_list <- arange 5 61 5 ;;
  s <- for_each time_list (generate_step coeff_list num_modes)
         (recon_model, [], None) ;;
  let '(_, out_temp, data_out) := s in
  tab <- c_ time_list out_temp ;;
  match data_out with
  | Some d => Ok (tab, d)
  | None => Raise UnboundLocalError
  end.

(** The value of [np.arange(5, 61, 5)]. *)
Definition time_points : list Z :=
  [5; 10; 15; 20; 25; 30; 35; 40; 45; 50; 55; 60]%Z.

(** The value that [num_modes] holds after line 130, and with which
    [morph_model] is called. *)
Definition effective_modes (self : Reconstructor) (t : R)
    (param_list : list R) (num_modes : Z) : result Z :=
  pod_coefs <- fst (predicted_coefs t param_list self) ;;
  clamped_modes pod_coefs num_modes.

(** The coefficient vector that the regressor emits for one row of
    features, before [squeeze]. *)
Definition emitted (self : Reconstructor) (t : R) (param_list : list R)
  : list R :=
  xgb_model self (t :: param_list).

(** A turn of the loop of [generate_data] succeeds: the reconstruction
    returns a field that has a maximum. *)
Definition turn_succeeds (coeff_list : list R) (num_modes : Z)
    (model : Reconstructor) (t : Z) : Prop :=
  exists field,
    fst (reconstruct_with_xgboost (of_int t) coeff_list None num_modes model)
      = Ok (FieldV field) /\ field <> [].

(** A turn fails with [e]: the reconstruction raises it, or it returns
    a field without entries, of which [max] raises [ValueError]. *)
Definition turn_fails (coeff_list : list R) (num_modes : Z)
    (model : Reconstructor) (t : Z) (e : exception) : Prop :=
  fst (reconstruct_with_xgboost (of_int t) coeff_list None num_modes model)
    = Raise e \/
  (fst (reconstruct_with_xgboost (of_int t) coeff_list None num_modes model)
     = Ok (FieldV []) /\ e = ValueError).

End Reconstructor.

Arguments Reconstructor R : clear implicits.
Arguments npzfile R : clear implicits.
Arguments filesystem R : clear implicits.
Arguments recon_value R : clear implicits.

(* ===================================================================== *)
(** ** navigation/infer_page.py: get_parameters_from_config              *)
(* ===================================================================== *)

Section Config.
Context {R : Type} `{Scalar R}.

(** The uq-toolkit configuration, as far as the page reads it.  The
    records are the files that follow the schema: every key that the
    parser indexes is there, and [loc] and [scale] are numbers that
    [float] takes as they are.  A file that lacks a key, or holds a
    number that [float] cannot represent, is not a value of these
    types. *)
Record distribution : Type := {
  name : string;
  loc : R;
  scale : R
}.

Record uq_param : Type := {
  param_distribution : distribution;
  human_description : string
}.

Record app : Type := {
  type : string;
  uncertain_params : odict (odict uq_param)
}.

Record config : Type := { apps : odict app }.

(** The two tests of the parser: [name == "uniform"] on a parameter
    and [app_type == "moose"] on an application. *)
Definition is_uniform (q : uq_param) : bool :=
  String.eqb (name (param_distribution q)) "uniform".

Definition is_moose (a : app) : bool := String.eqb (type a) "moose".

(** [float(x)] of a number that is a float already. *)
Definition float (x : R) : R := x.

(** The three lists that the loops append to. *)
Definition param_lists : Type := (list string * list R * list R)%type.

(** The body of the innermost loop: one parameter of one block. *)
Definition read_param (block : odict uq_param) (param_i : string)
    (s : param_lists) : result param_lists :=
  let '(name_list, min_val_list, max_val_list) := s in
  uq_param_config <- getitem block param_i ;;
  let d := param_distribution uq_param_config in
  if negb (String.eqb (name d) "uniform") then Raise NotImplementedError
  else
    Ok (name_list ++ [human_description uq_param_config],
        min_val_list ++ [float (loc d)],
        max_val_list ++ [float (sadd (loc d) (scale d))]).

(** [for key_i in uq_config: for param_i in uq_config[key_i]: ...] *)
Definition read_block (uq_config : odict (odict uq_param))
    (key_i : string) (s : param_lists) : result param_lists :=
  block <- getitem uq_config key_i ;;
  for_each (keys block) (read_param block) s.

(** The body of the loop over the applications. *)
Definition read_app (cfg : config) (fname : string) (s : param_lists)
  : result param_lists :=
  a <- getitem (apps cfg) fname ;;
  let app_type := type a in
  if String.eqb app_type "moose" then
    let uq_config := uncertain_params a in
    for_each (keys uq_config) (read_block uq_config) s
  else Ok s.

(** Everything after [hjson.load]. *)
Definition parameters_of_config (cfg : config) : result param_lists :=
  let app_name_list := keys (apps cfg) in
  for_each app_name_list (read_app cfg) ([], [], []).

(** [get_parameters_from_config]; [files] stands for [open] followed
    by [hjson.load]. *)
Definition get_parameters_from_config (files : string -> option config)
    (config_name : string) : result param_lists :=
  match files config_name with
  | None => Raise FileNotFoundError
  | Some cfg => parameters_of_config cfg
  end.

(** The values of a dictionary as a loop over its keys meets them,
    [[d[k] for k in d]]. *)
Definition values {V} (d : odict V) : list V :=
  flat_map (fun k => match lookup d k with
                     | Some v => [v]
                     | None => []
                     end) (keys d).

(** The parameter entries that the three nested loops visit, in the
    order in which they visit them. *)
Definition moose_entries (cfg : config) : list uq_param :=
  flat_map (fun a =>
              if is_moose a
              then flat_map (fun block => values block)
                            (values (uncertain_params a))
              else [])
           (values (apps cfg)).

(** The three lists after the entries [qs] have been appended to them. *)
Definition append_params (s : param_lists) (qs : list uq_param)
  : param_lists :=
  (fst (fst s) ++ map human_description qs,
   snd (fst s) ++ map (fun q => float (loc (param_distribution q))) qs,
   snd s ++ map (fun q => float (sadd (loc (param_distribution q))
                                      (scale (param_distribution q)))) qs).

(** The same entries read off the file: every moose application in
    turn, its blocks in turn, their parameters in turn. *)
Definition file_entries (cfg : config) : list uq_param :=
  flat_map (fun kv : string * app =>
              if is_moose (snd kv)
              then flat_map (fun kb : string * odict uq_param =>
                               map snd (snd kb))
                            (uncertain_params (snd kv))
              else [])
           (apps cfg).

(** No key occurs twice in a dictionary of the configuration, as in
    everything [hjson.load] returns. *)
Definition distinct_keys (cfg : config) : Prop :=
  NoDup (keys (apps cfg)) /\
  Forall (fun kv : string * app =>
            NoDup (keys (uncertain_params (snd kv))) /\
            Forall (fun kb : string * odict uq_param => NoDup (keys (snd kb)))
                   (uncertain_params (snd kv)))
         (apps cfg).

End Config.

Arguments distribution R : clear implicits.
Arguments uq_param R : clear implicits.
Arguments app R : clear implicits.
Arguments config R : clear implicits.
Arguments param_lists R : clear implicits.

(* ===================================================================== *)
(** ** Sample artifacts over the integers                                *)
(* ===================================================================== *)

Module Samples.

Local Open Scope Z_scope.

(** The identity basis on two points. *)
Definition identity_basis : matrix Z := Matrix 2 [[1; 0]; [0; 1]].

Definition model_of (b : Booster Z) : Reconstructor Z :=
  {| xgb_model := b;
     sam_obj := {| std := [1; 1] |};
     mean_dataset_columnvector := [0; 0];
     pca_model_components := identity_basis |}.

(** A regressor trained on two modes, one trained on a single mode,
    and one trained on three. *)
Definition two_modes : Reconstructor Z := model_of (fun _ => [2; 3]).
Definition one_mode : Reconstructor Z := model_of (fun _ => [2]).
Definition three_modes : Reconstructor Z := model_of (fun _ => [2; 3; 4]).

(** A regressor whose first coefficient follows the time, on disk
    and loaded. *)
Definition follows_time : Booster Z := fun feats => [hd 0 feats; 3].

Definition disk : filesystem Z :=
  {| xgb_files := fun _ => Some follows_time;
     npz_files := fun _ =>
       Some {| npz_mean := [0; 0];
               npz_pca_components := identity_basis;
               npz_pca_std := [1; 1] |} |}.

Definition loaded : Reconstructor Z := model_of follows_time.

Definition uniform_entry (label : string) (lo width : Z) : uq_param Z :=
  {| param_distribution := {| name := "uniform"; loc := lo; scale := width |};
     human_description := label |}.

Definition normal_entry (label : string) : uq_param Z :=
  {| param_distribution := {| name := "normal"; loc := 0; scale := 1 |};
     human_description := label |}.

(** A moose application with two uniform parameters next to a json
    application that declares a normal prior. *)
Definition mixed_config : config Z :=
  {| apps :=
       [ ("hive.i"%string,
          {| type := "moose";
             uncertain_params :=
               [ ("Materials"%string,
                  [ ("k"%string, uniform_entry "Conductivity" 10 5);
                    ("cp"%string, uniform_entry "Heat capacity" 300 100) ]) ] |});
         ("coil.json"%string,
          {| type := "json";
             uncertain_params :=
               [ ("Coil"%string,
                  [ ("I"%string, normal_entry "Current") ]) ] |}) ] |}.

(** The same file with the normal prior inside the moose application. *)
Definition normal_config : config Z :=
  {| apps :=
       [ ("hive.i"%string,
          {| type := "moose";
             uncertain_params :=
               [ ("Materials"%string,
                  [ ("k"%string, uniform_entry "Conductivity" 10 5);
                    ("I"%string, normal_entry "Current");
                    ("cp"%string, uniform_entry "Heat capacity" 300 100) ]) ] |}) ] |}.

(** A regressor that loses its second output from time 30 on. *)
Definition breaks_at_30 : Booster Z :=
  fun feats => if hd 0 feats <? 30 then [hd 0 feats; 3] else [2].

Definition broken_disk : filesystem Z :=
  {| xgb_files := fun _ => Some breaks_at_30;
     npz_files := fun _ =>
       Some {| npz_mean := [0; 0];
               npz_pca_components := identity_basis;
               npz_pca_std := [1; 1] |} |}.

(** A basis over a mesh without points. *)
Definition pointless_disk : filesystem Z :=
  {| xgb_files := fun _ => Some follows_time;
     npz_files := fun _ =>
       Some {| npz_mean := [];
               npz_pca_components := Matrix 0 [[]; []];
               npz_pca_std := [1; 1] |} |}.

Definition pointless : Reconstructor Z :=
  {| xgb_model := follows_time;
     sam_obj := {| std := [1; 1] |};
     mean_dataset_columnvector := [];
     pca_model_components := Matrix 0 [[]; []] |}.

End Samples.

(* ===================================================================== *)
(** ** Facts about the numpy operations                                  *)
(* ===================================================================== *)

Section ArrayFacts.
Context {R : Type} `{Scalar R}.

Lemma py_min_spec (a b : Z) : Py.min a b = Z.min a b.
Proof.
  unfold Py.min. destruct (Z.ltb_spec b a); lia.
Qed.

(** A slice is a prefix, clipped to the length of the sequence. *)
Lemma slice_to_nonneg {A} (xs : list A) (n : Z) :
  (0 <= n)%Z ->
  slice_to xs n = firstn (Nat.min (Z.to_nat n) (length xs)) xs.
Proof.
  intros Hn. unfold slice_to.
  destruct (Z.leb_spec 0 n) as [_|Hneg]; [|lia].
  destruct (Nat.le_ge_cases (Z.to_nat n) (length xs)) as [Hle|Hge].
  - now rewrite Nat.min_l.
  - rewrite Nat.min_r by assumption.
    now rewrite firstn_all, firstn_all2.
Qed.

Lemma slice_to_prefix {A} (xs : list A) (n : Z) :
  exists k, k <= length xs /\ slice_to xs n = firstn k xs.
Proof.
  destruct (Z.leb_spec 0 n) as [Hn|Hn].
  - exists (Nat.min (Z.to_nat n) (length xs)). split; [lia|].
    now apply slice_to_nonneg.
  - exists (length xs - Z.to_nat (- n)). split; [lia|].
    unfold slice_to. destruct (Z.leb_spec 0 n); [lia|reflexivity].
Qed.

Lemma slice_to_length {A} (xs : list A) (n : Z) :
  (0 <= n)%Z ->
  length (slice_to xs n) = Nat.min (Z.to_nat n) (length xs).
Proof.
  intros Hn. rewrite slice_to_nonneg by assumption.
  rewrite length_firstn. lia.
Qed.

Lemma slice_to_zero {A} (xs : list A) : slice_to xs 0 = [].
Proof. reflexivity. Qed.

(** What reaches line 130: a single coefficient has lost its axis. *)
Lemma squeeze_predict (b : Booster R) (row : list R) :
  squeeze (array (predict b (DMatrix [row]))) =
  match b row with
  | [c] => Arr0 c
  | cs => Arr1 cs
  end.
Proof.
  unfold array, DMatrix, predict. simpl.
  destruct (b row) as [|c [|c' cs]]; reflexivity.
Qed.

End ArrayFacts.

(* ===================================================================== *)
(** ** reconstruct_with_xgboost                                          *)
(* ===================================================================== *)

Section ReconstructorFacts.
Context {R : Type} `{Scalar R}.

Implicit Types (self : Reconstructor R) (t : R) (p : list R).

Lemma predicted_coefs_run self t p :
  predicted_coefs t p self =
  (Ok match emitted self t p with
      | [c] => Arr0 c
      | cs => Arr1 cs
      end, self).
Proof.
  unfold predicted_coefs, mbind, attr, mret, emitted.
  now rewrite squeeze_predict.
Qed.

(** The method never assigns to an attribute. *)
Lemma reconstruct_keeps_self self t p reduction num_modes :
  snd (reconstruct_with_xgboost t p reduction num_modes self) = self.
Proof.
  unfold reconstruct_with_xgboost, mbind at 1.
  rewrite predicted_coefs_run.
  unfold mbind, pure, attr, mret.
  destruct (clamped_modes _ num_modes) as [m|e]; [|reflexivity].
  destruct (getslice _ m) as [coefs|e]; [|reflexivity].
  destruct (morph_model _ _ _ coefs m) as [field|e]; [|reflexivity].
  destruct reduction as [f|]; [|reflexivity].
  destruct (f field); reflexivity.
Qed.

(** The value computed by the method, in the error monad alone. *)
Lemma reconstruct_value self t p reduction num_modes :
  fst (reconstruct_with_xgboost t p reduction num_modes self) =
  (let pod_coefs := match emitted self t p with
                    | [c] => Arr0 c
                    | cs => Arr1 cs
                    end in
   m <- effective_modes self t p num_modes ;;
   coefs <- getslice pod_coefs m ;;
   field <- morph_model (sam_obj self) (mean_dataset_columnvector self)
              (pca_model_components self) coefs m ;;
   match reduction with
   | Some f => v <- f field ;; Ok (ScalarV v)
   | None => Ok (FieldV field)
   end).
Proof.
  unfold effective_modes, reconstruct_with_xgboost, mbind at 1.
  rewrite predicted_coefs_run. cbn [fst Py.bind].
  unfold mbind, pure, attr, mret.
  destruct (clamped_modes _ num_modes) as [m|e]; [|reflexivity].
  cbn [Py.bind].
  destruct (getslice _ m) as [coefs|e]; [|reflexivity].
  cbn [Py.bind].
  destruct (morph_model _ _ _ coefs m) as [field|e]; [|reflexivity].
  cbn [Py.bind].
  destruct reduction as [f|]; [|reflexivity].
  destruct (f field); reflexivity.
Qed.

(** The clamp of line 130, when the prediction kept its axis. *)
Lemma effective_modes_vector self t p num_modes :
  length (emitted self t p) <> 1 ->
  effective_modes self t p num_modes =
  Ok (Z.min num_modes (Z.of_nat (length (emitted self t p)))).
Proof.
  intros HL. unfold effective_modes.
  rewrite predicted_coefs_run. cbn [fst Py.bind].
  destruct (emitted self t p) as [|c [|c' cs]] eqn:E;
    [ | now contradiction HL | ];
    unfold clamped_modes, len; cbn [Py.bind];
    rewrite py_min_spec; f_equal; lia.
Qed.

Lemma effective_modes_scalar self t p num_modes :
  length (emitted self t p) = 1 ->
  effective_modes self t p num_modes = Raise TypeError.
Proof.
  intros HL. unfold effective_modes.
  rewrite predicted_coefs_run. cbn [fst Py.bind].
  destruct (emitted self t p) as [|c [|c' cs]]; try discriminate HL.
  reflexivity.
Qed.

Lemma effective_modes_inv self t p num_modes m :
  effective_modes self t p num_modes = Ok m ->
  length (emitted self t p) <> 1 /\
  m = Z.min num_modes (Z.of_nat (length (emitted self t p))).
Proof.
  intros Hm.
  destruct (Nat.eq_dec (length (emitted self t p)) 1) as [E|NE].
  - rewrite effective_modes_scalar in Hm by assumption. discriminate.
  - rewrite effective_modes_vector in Hm by assumption.
    split; [assumption|congruence].
Qed.

(** With a non-negative request, the number of coefficients handed
    to [morph_model] is the clamped mode count. *)
Lemma modes_used self t p num_modes :
  length (emitted self t p) <> 1 ->
  (0 <= num_modes)%Z ->
  exists m coefs,
    effective_modes self t p num_modes = Ok m /\
    m = Z.min num_modes (Z.of_nat (length (emitted self t p))) /\
    coefs = slice_to (emitted self t p) m /\
    Z.of_nat (length coefs) = m /\
    fst (reconstruct_with_xgboost t p None num_modes self) =
    (field <- morph_model (sam_obj self) (mean_dataset_columnvector self)
                (pca_model_components self) (Arr1 coefs) m ;;
     Ok (FieldV field)).
Proof.
  intros HL Hn. eexists. eexists.
  split; [now apply effective_modes_vector|].
  split; [reflexivity|]. split; [reflexivity|]. split.
  - rewrite slice_to_length by lia. lia.
  - rewrite reconstruct_value, effective_modes_vector by assumption.
    cbn [Py.bind].
    destruct (emitted self t p) as [|c [|c' cs]];
      [ | now contradiction HL | ]; cbn [getslice Py.bind];
      now destruct (morph_model _ _ _ _ _).
Qed.

End ReconstructorFacts.

Section MorphFacts.
Context {R : Type} `{Scalar R}.

Implicit Types (self : Reconstructor R) (t : R) (p : list R).

Lemma broadcast_error op (xs ys : list R) e :
  broadcast op xs ys = Raise e -> e = ValueError.
Proof.
  unfold broadcast.
  destruct (Nat.eqb _ _); [discriminate|].
  destruct xs as [|x [|x' xs]], ys as [|y [|y' ys]];
    intros E; try discriminate E; now inversion E.
Qed.

Lemma dot_T_error (m : matrix R) w e :
  dot_T m w = Raise e -> e = ValueError.
Proof.
  unfold dot_T. destruct (Nat.eqb _ _); [discriminate|].
  intros E; now inversion E.
Qed.

(** The basis expansion fails on disagreeing shapes and on nothing
    else. *)
Lemma morph_model_error (sam : SAM R) mean comps coefs num_modes e :
  morph_model sam mean comps coefs num_modes = Raise e -> e = ValueError.
Proof.
  unfold morph_model.
  destruct coefs as [x|xs|m]; cbn [Py.bind].
  - destruct (dot_T _ _) as [scaled|e'] eqn:D; cbn [Py.bind].
    + apply broadcast_error.
    + intros E; inversion E; subst. eapply dot_T_error; eassumption.
  - destruct (broadcast smul xs _) as [w|e'] eqn:B; cbn [Py.bind].
    + destruct (dot_T _ _) as [scaled|e''] eqn:D; cbn [Py.bind].
      * apply broadcast_error.
      * intros E; inversion E; subst. eapply dot_T_error; eassumption.
    + intros E; inversion E; subst. eapply broadcast_error; eassumption.
  - intros E; now inversion E.
Qed.

Lemma add_zeros (mean : list R) (js : list nat) :
  (forall x, sadd x szero = x) ->
  length js = length mean ->
  map (fun q => sadd (fst q) (snd q))
      (combine mean (map (fun _ : nat => szero) js)) = mean.
Proof.
  intros Hz. revert js.
  induction mean as [|x mean IH]; intros [|j js] Hlen;
    try discriminate Hlen; [reflexivity|].
  cbn. rewrite Hz. f_equal. apply IH. now injection Hlen.
Qed.

(** With no mode the expansion is the mean. *)
Lemma morph_model_zero (sam : SAM R) mean (comps : matrix R) :
  (forall x, sadd x szero = x) ->
  ncols comps = length mean ->
  morph_model sam mean comps (Arr1 []) 0 = Ok mean.
Proof.
  intros Hz Hc. unfold morph_model.
  rewrite !slice_to_zero. cbn [Py.bind broadcast length Nat.eqb].
  cbn [combine map Py.bind dot_T nrows rows length Nat.eqb ncols].
  unfold broadcast. rewrite length_map, length_seq, Hc, Nat.eqb_refl.
  f_equal. apply add_zeros; [assumption|].
  now rewrite length_seq.
Qed.

(** Zero modes give the mean, whenever the prediction kept its axis
    and the basis has one column per entry of the mean. *)
Lemma zero_modes_mean self t p :
  (forall x, sadd x szero = x) ->
  ncols (pca_model_components self) =
    length (mean_dataset_columnvector self) ->
  length (emitted self t p) <> 1 ->
  fst (reconstruct_with_xgboost t p None 0 self) =
  Ok (FieldV (mean_dataset_columnvector self)).
Proof.
  intros Hz Hc HL.
  destruct (modes_used self t p HL (Z.le_refl 0))
    as (m & coefs & _ & Hm & Hcoefs & _ & Hrun).
  assert (Hm0 : m = 0%Z) by lia.
  rewrite Hm0 in Hcoefs, Hrun. rewrite slice_to_zero in Hcoefs.
  rewrite Hrun, Hcoefs.
  now rewrite morph_model_zero.
Qed.

End MorphFacts.

(* ===================================================================== *)
(** ** Properties of the reconstruction                                  *)
(* ===================================================================== *)

Section ReconstructionProperties.
Context {R : Type} `{Scalar R}.

Implicit Types (self : Reconstructor R) (t : R) (p : list R).

(** C9. A regressor that emits exactly one coefficient makes
    [reconstruct_with_xgboost] raise: the squeezed prediction is a
    zero-dimensional array, [len] of it is a [TypeError], and the
    error surfaces whatever the mode count and the reduction.  From
    two coefficients on the clamp goes through and yields
    [min(num_modes, L)]. *)
Theorem single_coefficient_raises self t p num_modes :
  let L := length (emitted self t p) in
  (L = 1 ->
     (exists c, fst (predicted_coefs t p self) = Ok (Arr0 c) /\
                len (Arr0 c) = Raise TypeError) /\
     forall reduction,
       fst (reconstruct_with_xgboost t p reduction num_modes self)
       = Raise TypeError) /\
  (2 <= L ->
     effective_modes self t p num_modes
     = Ok (Z.min num_modes (Z.of_nat L))).
Proof.
  cbv zeta. split.
  - intros HL. split.
    + rewrite predicted_coefs_run.
      destruct (emitted self t p) as [|c [|c' cs]]; try discriminate HL.
      now exists c.
    + intros reduction.
      rewrite reconstruct_value, effective_modes_scalar by assumption.
      reflexivity.
  - intros HL. apply effective_modes_vector. lia.
Qed.

(** C2, as the code has it. The mode count that governs is
    [min(num_modes, L)], with [L] the number of predicted
    coefficients; the size of the basis plays no part in it.  The
    component rows and the scales are taken by slices, which are
    prefixes clipped to what the basis holds, and the reconstruction
    never ends in an [IndexError]. *)
Theorem modes_clamped_by_prediction_only self t p num_modes m :
  effective_modes self t p num_modes = Ok m ->
  m = Z.min num_modes (Z.of_nat (length (emitted self t p))) /\
  (exists k, k <= nrows (pca_model_components self) /\
             slice_to (rows (pca_model_components self)) m
             = firstn k (rows (pca_model_components self))) /\
  (exists k, k <= length (std (sam_obj self)) /\
             slice_to (std (sam_obj self)) m
             = firstn k (std (sam_obj self))) /\
  fst (reconstruct_with_xgboost t p None num_modes self)
  <> Raise IndexError.
Proof.
  intros Hm. destruct (effective_modes_inv _ _ _ _ Hm) as [HL Hmin].
  split; [assumption|].
  split; [apply slice_to_prefix|]. split; [apply slice_to_prefix|].
  rewrite reconstruct_value, Hm. cbn [Py.bind].
  destruct (emitted self t p) as [|c [|c' cs]];
    [ | now contradiction HL | ]; cbn [getslice Py.bind];
    (destruct (morph_model _ _ _ _ m) as [field|e] eqn:E;
     cbn [Py.bind]; [discriminate|]);
    apply morph_model_error in E; subst e; discriminate.
Qed.

(** C6. On the basis with mean [0,0], components [[1,0],[0,1]] and
    scales [1,1], and a regressor that always predicts [2,3], a
    reconstruction with two modes returns [2,3] at every time and for
    every parameter vector.  The scalars need only add and multiply
    the integers 0 to 3 exactly. *)
Theorem identity_basis_reconstruction (b : Booster R) t p :
  szero = of_int 0 ->
  (forall a c, (0 <= a <= 3)%Z -> (0 <= c <= 3)%Z ->
               sadd (of_int a) (of_int c) = of_int (a + c)) ->
  (forall a c, (0 <= a <= 3)%Z -> (0 <= c <= 3)%Z ->
               smul (of_int a) (of_int c) = of_int (a * c)) ->
  (forall feats, b feats = [of_int 2; of_int 3]) ->
  fst (reconstruct_with_xgboost t p None 2
         {| xgb_model := b;
            sam_obj := {| std := [of_int 1; of_int 1] |};
            mean_dataset_columnvector := [of_int 0; of_int 0];
            pca_model_components :=
              Matrix 2 [[of_int 1; of_int 0]; [of_int 0; of_int 1]] |})
  = Ok (FieldV [of_int 2; of_int 3]).
Proof.
  intros Hzero Hadd Hmul Hb.
  rewrite reconstruct_value. unfold effective_modes.
  rewrite predicted_coefs_run. unfold emitted. cbn [xgb_model].
  rewrite Hb. cbn. change (Pos.to_nat 2) with 2%nat.
  unfold morph_model, slice_to. cbn. change (Pos.to_nat 2) with 2%nat.
  cbn. rewrite Hzero.
  repeat rewrite Hmul by lia.
  repeat rewrite Hadd by lia.
  reflexivity.
Qed.

End ReconstructionProperties.

(* ===================================================================== *)
(** ** generate_data                                                     *)
(* ===================================================================== *)

Section GenerateData.
Context {R : Type} `{Scalar R}.

Variables (coeff_list : list R) (num_modes : Z).

Lemma arange_time_points : arange 5 61 5 = Ok time_points.
Proof. reflexivity. Qed.

(** One turn of the loop, when the reconstruction succeeds on a
    field that has a maximum. *)
Lemma generate_step_ok (model : Reconstructor R) t field v out_temp d :
  fst (reconstruct_with_xgboost (of_int t) coeff_list None num_modes model)
    = Ok (FieldV field) ->
  amax field = Ok v ->
  generate_step coeff_list num_modes t (model, out_temp, d)
  = Ok (model, out_temp ++ [v], Some (FieldV field)).
Proof.
  intros Hrun Hmax. unfold generate_step.
  pose proof (reconstruct_keeps_self model (of_int t) coeff_list None
                num_modes) as Hself.
  destruct (reconstruct_with_xgboost _ _ _ _ model) as [r model'].
  cbn [fst snd] in Hrun, Hself. subst r model'.
  cbn [Py.bind value_max]. now rewrite Hmax.
Qed.

Lemma last_default {A} (x : A) (l : list A) (d d' : A) :
  last (x :: l) d = last (x :: l) d'.
Proof.
  revert x. induction l as [|y l IH]; intros x; [reflexivity|].
  change (last (y :: l) d = last (y :: l) d'). apply IH.
Qed.

(** The whole loop: the maxima pile up in order, the object is the
    one the loop started with, and [data_out] is the field of the
    last turn. *)
Lemma generate_loop (model : Reconstructor R) (F : Z -> list R)
    (V : Z -> R) (ts : list Z) :
  (forall t, In t ts ->
     fst (reconstruct_with_xgboost (of_int t) coeff_list None num_modes
            model) = Ok (FieldV (F t)) /\
     amax (F t) = Ok (V t)) ->
  forall out_temp d,
    for_each ts (generate_step coeff_list num_modes) (model, out_temp, d)
    = Ok (model, out_temp ++ map V ts,
          last (map (fun t => Some (FieldV (F t))) ts) d).
Proof.
  induction ts as [|t ts IH]; intros Hts out_temp d.
  - cbn. now rewrite app_nil_r.
  - cbn [for_each].
    destruct (Hts t (or_introl eq_refl)) as [Hrun Hmax].
    rewrite (@generate_step_ok model t (F t) (V t) out_temp d Hrun Hmax).
    cbn [Py.bind].
    rewrite IH by (intros t' Ht'; apply Hts; now right).
    rewrite <- app_assoc. cbn [List.app map].
    f_equal. f_equal.
    destruct ts as [|t' ts]; [reflexivity|].
    cbn [map].
    change (last (Some (FieldV (F t)) :: ?x :: ?l) d) with (last (x :: l) d).
    apply last_default.
Qed.

(** What [generate_data] returns when every reconstruction succeeds. *)
Lemma generate_data_spec (fs : filesystem R) xgb_file pod_file model
    (F : Z -> list R) (V : Z -> R) :
  Reconstructor_init fs xgb_file pod_file = Ok model ->
  (forall t, In t time_points ->
     fst (reconstruct_with_xgboost (of_int t) coeff_list None num_modes
            model) = Ok (FieldV (F t)) /\
     amax (F t) = Ok (V t)) ->
  generate_data fs coeff_list xgb_file pod_file num_modes
  = Ok (map (fun t => (of_int t, V t)) time_points, FieldV (F 60%Z)).
Proof.
  intros Hinit Hts. unfold generate_data.
  rewrite Hinit, arange_time_points. cbn [Py.bind].
  rewrite (generate_loop model F V time_points Hts). cbn [Py.bind].
  reflexivity.
Qed.

(** Without a reduction the method returns a field. *)
Lemma reconstruct_returns_field (model : Reconstructor R) t v :
  fst (reconstruct_with_xgboost t coeff_list None num_modes model) = Ok v ->
  exists field, v = FieldV field.
Proof.
  rewrite reconstruct_value. cbv zeta.
  destruct (effective_modes _ _ _ _) as [m|e]; [|discriminate].
  cbn [Py.bind].
  destruct (getslice _ m) as [coefs|e]; [|discriminate]. cbn [Py.bind].
  destruct (morph_model _ _ _ coefs m) as [field|e]; [|discriminate].
  cbn [Py.bind]. intros E. injection E as <-. now exists field.
Qed.

(** The loop runs to its end only if every turn reconstructs a field
    that has a maximum. *)
Lemma generate_loop_inv (model : Reconstructor R) (ts : list Z) :
  forall out_temp d s,
    for_each ts (generate_step coeff_list num_modes) (model, out_temp, d)
    = Ok s ->
    forall t, In t ts ->
      exists field,
        fst (reconstruct_with_xgboost (of_int t) coeff_list None num_modes
               model) = Ok (FieldV field) /\
        field <> [].
Proof.
  induction ts as [|t0 ts IH]; intros out_temp d s Hrun t Ht; [easy|].
  cbn [for_each] in Hrun. unfold generate_step at 1 in Hrun.
  pose proof (reconstruct_keeps_self model (of_int t0) coeff_list None
                num_modes) as Hself.
  pose proof (@reconstruct_returns_field model (of_int t0)) as Hfield.
  destruct (reconstruct_with_xgboost _ _ _ _ model) as [r model'] eqn:Erun.
  cbn [fst snd] in Hself, Hfield. subst model'.
  destruct r as [v|e]; [|discriminate Hrun].
  destruct (Hfield v eq_refl) as [field ->].
  cbn [Py.bind value_max] in Hrun.
  destruct (amax field) as [m|e] eqn:Hmax; [|discriminate Hrun].
  cbn [Py.bind] in Hrun.
  destruct Ht as [<-|Ht].
  - exists field. split; [now rewrite Erun|].
    intros ->. discriminate Hmax.
  - eapply IH; eassumption.
Qed.

(** [generate_data] returns only if the artifacts load and every one
    of the twelve reconstructions yields a non-empty field. *)
Lemma generate_data_inv (fs : filesystem R) xgb_file pod_file out :
  generate_data fs coeff_list xgb_file pod_file num_modes = Ok out ->
  exists model,
    Reconstructor_init fs xgb_file pod_file = Ok model /\
    forall t, In t time_points ->
      exists field,
        fst (reconstruct_with_xgboost (of_int t) coeff_list None num_modes
               model) = Ok (FieldV field) /\
        field <> [].
Proof.
  unfold generate_data.
  destruct (Reconstructor_init fs xgb_file pod_file) as [model|e];
    [|discriminate].
  rewrite arange_time_points. cbn [Py.bind].
  destruct (for_each _ _ _) as [s|e] eqn:Hloop; [|discriminate].
  intros _. exists model. split; [reflexivity|].
  eapply generate_loop_inv; eassumption.
Qed.

Lemma amax_nonempty (field : list R) :
  field <> [] -> exists v, amax field = Ok v.
Proof.
  destruct field as [|x xs]; [contradiction|]. intros _. now eexists.
Qed.

(** C4. When the artifacts load and the reconstruction yields a
    field at each of the time points 5, 10, ..., 60, [generate_data]
    returns twelve (time, value) pairs, one per time point and in
    that order, and the value of each pair is the maximum of the full
    field reconstructed at its time. *)
Theorem generate_data_series (fs : filesystem R) xgb_file pod_file model
    (F : Z -> list R) :
  Reconstructor_init fs xgb_file pod_file = Ok model ->
  (forall t, In t time_points ->
     fst (reconstruct_with_xgboost (of_int t) coeff_list None num_modes
            model) = Ok (FieldV (F t)) /\
     F t <> []) ->
  exists tab snapshot,
    generate_data fs coeff_list xgb_file pod_file num_modes
    = Ok (tab, snapshot) /\
    length tab = 12 /\
    map fst tab = map of_int [5; 10; 15; 20; 25; 30; 35; 40; 45; 50; 55; 60]%Z /\
    Forall2 (fun t row => amax (F t) = Ok (snd row)) time_points tab.
Proof.
  intros Hinit Hts.
  set (V := fun t => match amax (F t) with Ok v => v | Raise _ => szero end).
  assert (HV : forall t, In t time_points -> amax (F t) = Ok (V t)).
  { intros t Ht. destruct (Hts t Ht) as [_ Hne].
    destruct (amax_nonempty Hne) as [v Hv]. unfold V. now rewrite Hv. }
  exists (map (fun t => (of_int t, V t)) time_points), (FieldV (F 60%Z)).
  split.
  - eapply generate_data_spec; [eassumption|].
    intros t Ht. split; [now apply Hts | now apply HV].
  - split; [reflexivity|]. split; [reflexivity|].
    revert HV. generalize time_points as ts.
    induction ts as [|t ts IH]; intros HV; cbn [map]; constructor.
    + cbn [snd]. apply HV. now left.
    + apply IH. intros t' Ht'. apply HV. now right.
Qed.

(** C7. Under the same conditions the second output is the full
    field reconstructed at the last time point, 60, as the last turn
    of the loop left it, while the series holds one scalar, the
    maximum, per time point. *)
Theorem generate_data_snapshot (fs : filesystem R) xgb_file pod_file
    model (F : Z -> list R) :
  Reconstructor_init fs xgb_file pod_file = Ok model ->
  (forall t, In t time_points ->
     fst (reconstruct_with_xgboost (of_int t) coeff_list None num_modes
            model) = Ok (FieldV (F t)) /\
     F t <> []) ->
  exists tab,
    generate_data fs coeff_list xgb_file pod_file num_modes
    = Ok (tab, FieldV (F 60%Z)) /\
    last time_points 0%Z = 60%Z /\
    fst (reconstruct_with_xgboost (of_int 60%Z) coeff_list None num_modes
           model) = Ok (FieldV (F 60%Z)) /\
    map (fun row => Ok (snd row)) tab = map (fun t => amax (F t)) time_points.
Proof.
  intros Hinit Hts.
  set (V := fun t => match amax (F t) with Ok v => v | Raise _ => szero end).
  assert (HV : forall t, In t time_points -> amax (F t) = Ok (V t)).
  { intros t Ht. destruct (Hts t Ht) as [_ Hne].
    destruct (amax_nonempty Hne) as [v Hv]. unfold V. now rewrite Hv. }
  exists (map (fun t => (of_int t, V t)) time_points).
  split.
  - eapply generate_data_spec; [eassumption|].
    intros t Ht. split; [now apply Hts | now apply HV].
  - split; [reflexivity|]. split.
    + apply Hts. unfold time_points. cbn. tauto.
    + rewrite map_map. cbn [snd]. apply map_ext_in.
      intros t Ht. symmetry. now apply HV.
Qed.

End GenerateData.

(* ===================================================================== *)
(** ** Loops and dictionaries                                            *)
(* ===================================================================== *)

Section LoopFacts.
Context {A S : Type}.

Implicit Types (body : A -> S -> result S) (xs : list A).

Lemma for_each_ext body body' xs s :
  (forall x s', In x xs -> body x s' = body' x s') ->
  for_each xs body s = for_each xs body' s.
Proof.
  revert s. induction xs as [|x xs IH]; intros s Hext; [reflexivity|].
  cbn. rewrite Hext by now left.
  destruct (body' x s) as [s'|e]; cbn; [|reflexivity].
  apply IH. intros y s'' Hy. apply Hext. now right.
Qed.

(** Turns that change nothing can be left out. *)
Lemma for_each_filter body (keep : A -> bool) xs s :
  (forall x s', In x xs -> keep x = false -> body x s' = Ok s') ->
  for_each xs body s = for_each (filter keep xs) body s.
Proof.
  revert s. induction xs as [|x xs IH]; intros s Hskip; [reflexivity|].
  cbn. destruct (keep x) eqn:K.
  - cbn. destruct (body x s) as [s'|e]; cbn; [|reflexivity].
    apply IH. intros y s'' Hy. apply Hskip. now right.
  - rewrite Hskip by (now left || assumption). cbn.
    apply IH. intros y s'' Hy. apply Hskip. now right.
Qed.

(** A loop whose turns can only fail with [e] can only fail with [e]. *)
Lemma for_each_only body e xs s :
  (forall x s', In x xs ->
     body x s' = Raise e \/ exists s'', body x s' = Ok s'') ->
  for_each xs body s = Raise e \/ exists s', for_each xs body s = Ok s'.
Proof.
  revert s. induction xs as [|x xs IH]; intros s Hb.
  - right. now exists s.
  - cbn. destruct (Hb x s (or_introl eq_refl)) as [E|[s' E]]; rewrite E.
    + now left.
    + cbn. apply IH. intros y s'' Hy. apply Hb. now right.
Qed.

(** ... and it does fail if one of its turns always does. *)
Lemma for_each_raises body e xs x s :
  In x xs ->
  (forall s', body x s' = Raise e) ->
  (forall y s', In y xs ->
     body y s' = Raise e \/ exists s'', body y s' = Ok s'') ->
  for_each xs body s = Raise e.
Proof.
  revert s. induction xs as [|y xs IH]; intros s Hin Hx Hb; [easy|].
  cbn. destruct Hin as [->|Hin].
  - now rewrite Hx.
  - destruct (Hb y s (or_introl eq_refl)) as [E|[s' E]]; rewrite E;
      [reflexivity|].
    cbn. apply IH; [assumption|assumption|].
    intros z s'' Hz. apply Hb. now right.
Qed.

End LoopFacts.

Section DictFacts.
Context {V : Type}.

Implicit Types (d : odict V) (k : string).

Lemma lookup_in_keys d k v : lookup d k = Some v -> In k (keys d).
Proof.
  induction d as [|[k' v'] d IH]; [discriminate|]. cbn.
  destruct (String.eqb_spec k' k) as [->|NE]; [now left|].
  intros L. right. now apply IH.
Qed.

Lemma keys_have_values d k : In k (keys d) -> exists v, lookup d k = Some v.
Proof.
  induction d as [|[k' v'] d IH]; [easy|]. cbn.
  destruct (String.eqb_spec k' k) as [->|NE]; [now eexists|].
  intros [E|Hin]; [contradiction|]. now apply IH.
Qed.

Lemma in_keys d k v : In (k, v) d -> In k (keys d).
Proof. intros Hin. apply (in_map fst) in Hin. exact Hin. Qed.

(** In a dictionary, whose keys are distinct, every item is the one
    its key leads to. *)
Lemma lookup_item d k v :
  NoDup (keys d) -> In (k, v) d -> lookup d k = Some v.
Proof.
  induction d as [|[k' v'] d IH]; [easy|]. cbn.
  intros ND [E|Hin].
  - injection E as -> ->. now rewrite String.eqb_refl.
  - inversion ND as [|? ? Hk' ND']; subst.
    destruct (String.eqb_spec k' k) as [->|NE].
    + exfalso. apply Hk'. eapply in_keys; eassumption.
    + now apply IH.
Qed.

Lemma keys_filter_NoDup (keep : string * V -> bool) d :
  NoDup (keys d) -> NoDup (keys (filter keep d)).
Proof.
  induction d as [|[k v] d IH]; [easy|]. cbn.
  intros ND. inversion ND as [|? ? Hk ND']; subst.
  destruct (keep (k, v)); [|now apply IH].
  cbn. constructor; [|now apply IH].
  intros Hin. apply Hk. unfold keys in *.
  apply in_map_iff in Hin as ([k' v'] & E & Hin). cbn in E. subst k'.
  apply filter_In in Hin as [Hin _]. eapply in_keys; eassumption.
Qed.

(** Filtering the items is filtering the keys, when the test on a
    key is the test on its item. *)
Lemma keys_filter (keep : string * V -> bool) (keepk : string -> bool)
    d :
  (forall k v, In (k, v) d -> keepk k = keep (k, v)) ->
  keys (filter keep d) = filter keepk (keys d).
Proof.
  induction d as [|[k v] d IH]; [easy|]. cbn. intros Hk.
  rewrite (Hk k v) by now left.
  destruct (keep (k, v)); cbn; [f_equal|]; apply IH;
    intros k' v' Hin; apply Hk; now right.
Qed.

End DictFacts.

(* ===================================================================== *)
(** ** get_parameters_from_config                                        *)
(* ===================================================================== *)

Section ConfigFacts.
Context {R : Type} `{Scalar R}.

(** One parameter: appended when uniform, refused otherwise. *)
Lemma read_param_run (block : odict (uq_param R)) param_i q s :
  lookup block param_i = Some q ->
  read_param block param_i s =
  if is_uniform q then
    Ok (fst (fst s) ++ [human_description q],
        snd (fst s) ++ [float (loc (param_distribution q))],
        snd s ++ [float (sadd (loc (param_distribution q))
                              (scale (param_distribution q)))])
  else Raise NotImplementedError.
Proof.
  intros L. destruct s as [[names mins] maxs].
  unfold read_param, getitem, is_uniform. rewrite L. cbn [Py.bind fst snd].
  now destruct (String.eqb _ _).
Qed.

Lemma read_param_only (block : odict (uq_param R)) param_i s :
  In param_i (keys block) ->
  read_param block param_i s = Raise NotImplementedError \/
  exists s', read_param block param_i s = Ok s'.
Proof.
  intros Hin. destruct (keys_have_values _ _ Hin) as [q L].
  rewrite (read_param_run _ _ s L).
  destruct (is_uniform q); [right; now eexists | now left].
Qed.

Lemma read_block_only (uq_config : odict (odict (uq_param R))) key_i s :
  In key_i (keys uq_config) ->
  read_block uq_config key_i s = Raise NotImplementedError \/
  exists s', read_block uq_config key_i s = Ok s'.
Proof.
  intros Hin. destruct (keys_have_values _ _ Hin) as [block L].
  unfold read_block, getitem. rewrite L. cbn [Py.bind].
  apply for_each_only. intros x s' Hx. now apply read_param_only.
Qed.

Lemma read_app_only (cfg : config R) fname s :
  In fname (keys (apps cfg)) ->
  read_app cfg fname s = Raise NotImplementedError \/
  exists s', read_app cfg fname s = Ok s'.
Proof.
  intros Hin. destruct (keys_have_values _ _ Hin) as [a L].
  unfold read_app, getitem. rewrite L. cbn [Py.bind].
  destruct (String.eqb _ _); [|right; now eexists].
  apply for_each_only. intros x s' Hx. now apply read_block_only.
Qed.

(** An application that is not a moose one passes through the loop
    untouched, whatever it declares. *)
Lemma read_app_skips (cfg : config R) fname a s :
  lookup (apps cfg) fname = Some a ->
  is_moose a = false ->
  read_app cfg fname s = Ok s.
Proof.
  intros L NM. unfold read_app, getitem. rewrite L. cbn [Py.bind].
  unfold is_moose in NM. now rewrite NM.
Qed.

(** C3. A parameter entry that the parser reaches, that is, one
    listed under the uncertain parameters of a moose application,
    whose distribution is not named "uniform" makes the whole call
    fail with the unsupported-distribution error
    ([NotImplementedError]); the caller receives no name, minimum or
    maximum list, however many entries were read before. *)
Theorem non_uniform_entry_is_fatal (files : string -> option (config R))
    config_name cfg fname a key_i block param_i q :
  files config_name = Some cfg ->
  lookup (apps cfg) fname = Some a ->
  type a = "moose"%string ->
  lookup (uncertain_params a) key_i = Some block ->
  lookup block param_i = Some q ->
  name (param_distribution q) <> "uniform"%string ->
  get_parameters_from_config files config_name
    = Raise NotImplementedError /\
  forall lists, get_parameters_from_config files config_name <> Ok lists.
Proof.
  intros Hfile La Hmoose Lb Lq Hname.
  assert (E : get_parameters_from_config files config_name
              = Raise NotImplementedError).
  { unfold get_parameters_from_config. rewrite Hfile.
    unfold parameters_of_config.
    apply for_each_raises with (x := fname).
    - eapply lookup_in_keys; eassumption.
    - intros s. unfold read_app, getitem. rewrite La. cbn [Py.bind].
      rewrite Hmoose, String.eqb_refl.
      apply for_each_raises with (x := key_i).
      + eapply lookup_in_keys; eassumption.
      + intros s'. unfold read_block, getitem. rewrite Lb. cbn [Py.bind].
        apply for_each_raises with (x := param_i).
        * eapply lookup_in_keys; eassumption.
        * intros s''. rewrite (read_param_run _ _ s'' Lq).
          unfold is_uniform.
          destruct (String.eqb_spec (name (param_distribution q))
                      "uniform"); [contradiction|reflexivity].
        * intros y s'' Hy. now apply read_param_only.
      + intros y s' Hy. now apply read_block_only.
    - intros y s Hy. now apply read_app_only. }
  split; [exact E|]. intros lists. rewrite E. discriminate.
Qed.

(** C10. Only moose applications are read.  An application of any
    other type leaves the three lists as they are and raises
    nothing, whatever distributions its entries declare, and the
    result of parsing a configuration is the result of parsing it
    with every such application removed. *)
Theorem non_moose_apps_are_skipped (cfg : config R) :
  NoDup (keys (apps cfg)) ->
  (forall fname a s,
     lookup (apps cfg) fname = Some a ->
     type a <> "moose"%string ->
     read_app cfg fname s = Ok s) /\
  parameters_of_config cfg =
  parameters_of_config {| apps := filter (fun kv => is_moose (snd kv))
                                         (apps cfg) |}.
Proof.
  intros ND. split.
  - intros fname a s L NM. apply read_app_skips with (a := a); [exact L|].
    unfold is_moose. now destruct (String.eqb_spec (type a) "moose").
  - set (moose_apps := filter (fun kv => is_moose (snd kv)) (apps cfg)).
    set (keep := fun k => match lookup (apps cfg) k with
                          | Some a => is_moose a
                          | None => false
                          end).
    unfold parameters_of_config. cbn [apps].
    assert (Hkeys : keys moose_apps = filter keep (keys (apps cfg))).
    { apply keys_filter. intros k v Hin. unfold keep.
      now rewrite (lookup_item _ _ _ ND Hin). }
    rewrite Hkeys.
    rewrite (for_each_filter (read_app cfg) keep).
    + apply for_each_ext. intros k s Hk.
      apply filter_In in Hk as [Hk Hkeep].
      unfold keep in Hkeep.
      destruct (lookup (apps cfg) k) as [a|] eqn:L; [|discriminate].
      assert (Hin : In (k, a) moose_apps).
      { apply filter_In. split; [|exact Hkeep].
        clear - L. induction (apps cfg) as [|[k' v'] d IH];
          [discriminate|].
        cbn in L. destruct (String.eqb_spec k' k) as [->|NE].
        - injection L as ->. now left.
        - right. now apply IH. }
      unfold read_app, getitem. cbn [apps]. rewrite L.
      change (filter _ (apps cfg)) with moose_apps.
      assert (L' : lookup moose_apps k = Some a).
      { apply lookup_item; [|exact Hin].
        now apply keys_filter_NoDup. }
      now rewrite L'.
    + intros k s Hk Hkeep. unfold keep in Hkeep.
      destruct (keys_have_values _ _ Hk) as [a L]. rewrite L in Hkeep.
      now apply read_app_skips with (a := a).
Qed.

End ConfigFacts.

Lemma single_coefficient_raises_witness :
  length (emitted Samples.one_mode 5%Z [1%Z]) = 1 /\
  fst (reconstruct_with_xgboost 5%Z [1%Z] None 4 Samples.one_mode)
  = Raise TypeError.
Proof.
  split; [reflexivity|].
  apply (proj1 (single_coefficient_raises Samples.one_mode 5%Z [1%Z] 4)).
  reflexivity.
Defined.

Lemma modes_clamped_by_prediction_only_witness :
  effective_modes Samples.three_modes 5%Z [1%Z] 7 = Ok 3%Z /\
  3%Z = Z.min 7 (Z.of_nat (length (emitted Samples.three_modes 5%Z [1%Z]))).
Proof.
  split; [reflexivity|].
  apply (modes_clamped_by_prediction_only Samples.three_modes 5%Z [1%Z] 7).
  reflexivity.
Defined.

Lemma identity_basis_reconstruction_witness :
  fst (reconstruct_with_xgboost 5%Z [1%Z] None 2 Samples.two_modes)
  = Ok (FieldV [2%Z; 3%Z]).
Proof.
  exact (@identity_basis_reconstruction Z Z_Scalar (fun _ => [2%Z; 3%Z])
           5%Z [1%Z] eq_refl (fun _ _ _ _ => eq_refl)
           (fun _ _ _ _ => eq_refl) (fun _ => eq_refl)).
Defined.

(** C2, as the spec has it, fails: with three predicted coefficients
    and a basis of two rows, a request for three modes is not brought
    down to two; the shapes then disagree and the call raises. *)
Lemma modes_exceed_basis_rows :
  exists m,
    effective_modes Samples.three_modes 5%Z [1%Z] 3 = Ok m /\
    (Z.of_nat (nrows (pca_model_components Samples.three_modes)) < m)%Z /\
    fst (reconstruct_with_xgboost 5%Z [1%Z] None 3 Samples.three_modes)
    = Raise ValueError.
Proof.
  exists 3%Z. repeat split.
Qed.

(** C1. The clamp is not silent for a regressor with a single output:
    asked for two modes where one coefficient is predicted, the call
    raises [TypeError] instead of using one mode. *)
Example clamp_raises_on_one_coefficient :
  emitted Samples.one_mode 5%Z [1%Z] = [2%Z] /\
  effective_modes Samples.one_mode 5%Z [1%Z] 2 = Raise TypeError /\
  fst (reconstruct_with_xgboost 5%Z [1%Z] None 2 Samples.one_mode)
  = Raise TypeError.
Proof. repeat split. Qed.

(** C5. With a single-output regressor a reconstruction with zero
    modes raises [TypeError] and does not return the mean. *)
Example zero_modes_raises_on_one_coefficient :
  mean_dataset_columnvector Samples.one_mode = [0%Z; 0%Z] /\
  fst (reconstruct_with_xgboost 5%Z [1%Z] None 0 Samples.one_mode)
  = Raise TypeError.
Proof. repeat split. Qed.

Lemma generate_data_series_witness :
  exists tab snapshot,
    generate_data Samples.disk [1%Z] "xgb_model.bin" "pod_weights.npz" 2
    = Ok (tab, snapshot) /\
    length tab = 12 /\
    map fst tab = [5; 10; 15; 20; 25; 30; 35; 40; 45; 50; 55; 60]%Z /\
    Forall2 (fun t row => amax [t; 3%Z] = Ok (snd row)) time_points tab.
Proof.
  apply (@generate_data_series Z Z_Scalar [1%Z] 2%Z Samples.disk
           "xgb_model.bin" "pod_weights.npz" Samples.loaded
           (fun t => [t; 3%Z])).
  - reflexivity.
  - intros t Ht. cbn in Ht.
    repeat (destruct Ht as [<-|Ht]; [split; [reflexivity|discriminate]|]).
    contradiction.
Defined.

Lemma generate_data_snapshot_witness :
  exists tab,
    generate_data Samples.disk [1%Z] "xgb_model.bin" "pod_weights.npz" 2
    = Ok (tab, FieldV [60%Z; 3%Z]).
Proof.
  destruct (@generate_data_snapshot Z Z_Scalar [1%Z] 2%Z Samples.disk
              "xgb_model.bin" "pod_weights.npz" Samples.loaded
              (fun t => [t; 3%Z])) as (tab & Hrun & _).
  - reflexivity.
  - intros t Ht. cbn in Ht.
    repeat (destruct Ht as [<-|Ht]; [split; [reflexivity|discriminate]|]).
    contradiction.
  - exists tab. exact Hrun.
Defined.

Lemma non_uniform_entry_is_fatal_witness :
  get_parameters_from_config (fun _ => Some Samples.normal_config)
    "tmp_data/config.jsonc"
  = Raise NotImplementedError.
Proof.
  apply (@non_uniform_entry_is_fatal Z Z_Scalar
           (fun _ => Some Samples.normal_config) "tmp_data/config.jsonc"
           Samples.normal_config "hive.i"
           {| type := "moose";
              uncertain_params :=
                [ ("Materials"%string,
                   [ ("k"%string, Samples.uniform_entry "Conductivity" 10 5);
                     ("I"%string, Samples.normal_entry "Current");
                     ("cp"%string,
                      Samples.uniform_entry "Heat capacity" 300 100) ]) ] |}
           "Materials"
           [ ("k"%string, Samples.uniform_entry "Conductivity" 10 5);
             ("I"%string, Samples.normal_entry "Current");
             ("cp"%string, Samples.uniform_entry "Heat capacity" 300 100) ]
           "I" (Samples.normal_entry "Current"));
    try reflexivity.
  discriminate.
Defined.

Lemma non_moose_apps_are_skipped_witness :
  NoDup (keys (apps Samples.mixed_config)) /\
  parameters_of_config Samples.mixed_config
  = Ok (["Conductivity"; "Heat capacity"]%string, [10; 300]%Z, [15; 400]%Z).
Proof.
  assert (ND : NoDup (keys (apps Samples.mixed_config))).
  { cbn. constructor.
    - intros [E|[]]. discriminate E.
    - constructor; [intros []|constructor]. }
  split; [exact ND|].
  rewrite (proj2 (non_moose_apps_are_skipped Samples.mixed_config ND)).
  reflexivity.
Defined.

(* ===================================================================== *)
(** ** get_parameters_from_config, in full                               *)
(* ===================================================================== *)

Section DictValues.
Context {V : Type}.

Implicit Types (d : odict V).

Lemma flat_map_values {B} (f : V -> list B) d (ks : list string) :
  flat_map f (flat_map (fun k => match lookup d k with
                                 | Some v => [v]
                                 | None => []
                                 end) ks)
  = flat_map (fun k => match lookup d k with
                       | Some v => f v
                       | None => []
                       end) ks.
Proof.
  induction ks as [|k ks IH]; [reflexivity|].
  cbn [flat_map]. rewrite flat_map_app, IH.
  destruct (lookup d k); cbn; [now rewrite app_nil_r|reflexivity].
Qed.

Lemma flat_map_over_values {B} (f : V -> list B) d :
  flat_map f (values d)
  = flat_map (fun k => match lookup d k with
                       | Some v => f v
                       | None => []
                       end) (keys d).
Proof. apply flat_map_values. Qed.

(** With distinct keys, looping over the keys and indexing meets the
    items one after the other. *)
Lemma values_items d : NoDup (keys d) -> values d = map snd d.
Proof.
  intros ND. unfold values.
  assert (G : forall d', incl d' d ->
            flat_map (fun k => match lookup d k with
                               | Some v => [v]
                               | None => []
                               end) (keys d') = map snd d').
  { induction d' as [|[k v] d' IH]; intros Hincl; [reflexivity|].
    cbn [keys map fst flat_map snd].
    rewrite (lookup_item d k v ND) by (apply Hincl; now left).
    cbn [List.app]. f_equal. apply IH.
    intros kv Hkv. apply Hincl. now right. }
  apply G, incl_refl.
Qed.

End DictValues.

Section ConfigCoverage.
Context {R : Type} `{Scalar R}.

Implicit Types (cfg : config R) (s : param_lists R).

Lemma append_params_nil s : append_params s [] = s.
Proof.
  destruct s as [[names mins] maxs]. unfold append_params. cbn.
  now rewrite !app_nil_r.
Qed.

Lemma append_params_app s (qs qs' : list (uq_param R)) :
  append_params s (qs ++ qs') = append_params (append_params s qs) qs'.
Proof.
  unfold append_params. cbn [fst snd]. now rewrite !map_app, !app_assoc.
Qed.

(** A loop each of whose turns appends its entries, or refuses them
    when one is not uniform, appends all the entries or refuses. *)
Lemma for_each_entries {A} (xs : list A)
    (body : A -> param_lists R -> result (param_lists R))
    (ents : A -> list (uq_param R)) s :
  (forall x s', In x xs ->
     body x s' = if forallb is_uniform (ents x)
                 then Ok (append_params s' (ents x))
                 else Raise NotImplementedError) ->
  for_each xs body s
  = if forallb is_uniform (flat_map ents xs)
    then Ok (append_params s (flat_map ents xs))
    else Raise NotImplementedError.
Proof.
  revert s. induction xs as [|x xs IH]; intros s Hb.
  - cbn. now rewrite append_params_nil.
  - cbn [for_each flat_map]. rewrite Hb by now left.
    rewrite forallb_app.
    destruct (forallb is_uniform (ents x)); cbn [Py.bind andb];
      [|reflexivity].
    rewrite IH by (intros y s' Hy; apply Hb; now right).
    destruct (forallb is_uniform (flat_map ents xs)); [|reflexivity].
    now rewrite append_params_app.
Qed.

Lemma read_block_entries (uq_config : odict (odict (uq_param R))) key_i
    block s :
  lookup uq_config key_i = Some block ->
  read_block uq_config key_i s
  = if forallb is_uniform (values block)
    then Ok (append_params s (values block))
    else Raise NotImplementedError.
Proof.
  intros L. unfold read_block, getitem. rewrite L. cbn [Py.bind].
  unfold values. apply for_each_entries.
  intros k s' Hk. destruct (keys_have_values _ _ Hk) as [q Lq].
  rewrite (read_param_run _ _ s' Lq), Lq. cbn [forallb].
  rewrite andb_true_r. now destruct (is_uniform q).
Qed.

Lemma read_app_entries cfg fname a s :
  lookup (apps cfg) fname = Some a ->
  read_app cfg fname s
  = let qs := if is_moose a
              then flat_map (fun block => values block)
                            (values (uncertain_params a))
              else [] in
    if forallb is_uniform qs then Ok (append_params s qs)
    else Raise NotImplementedError.
Proof.
  intros L. unfold read_app, getitem. rewrite L. cbn [Py.bind].
  cbv zeta. fold (is_moose a). destruct (is_moose a).
  - rewrite flat_map_over_values.
    apply for_each_entries.
    intros k s' Hk. destruct (keys_have_values _ _ Hk) as [block Lb].
    rewrite Lb. now apply read_block_entries.
  - cbn. now rewrite append_params_nil.
Qed.

Lemma moose_entries_by_key cfg :
  moose_entries cfg
  = flat_map (fun k => match lookup (apps cfg) k with
                       | Some a =>
                           if is_moose a
                           then flat_map (fun block => values block)
                                         (values (uncertain_params a))
                           else []
                       | None => []
                       end) (keys (apps cfg)).
Proof. unfold moose_entries. apply flat_map_over_values. Qed.

(** The parser in one equation. *)
Lemma parameters_of_config_run cfg :
  parameters_of_config cfg
  = if forallb is_uniform (moose_entries cfg)
    then Ok (map human_description (moose_entries cfg),
             map (fun q => loc (param_distribution q)) (moose_entries cfg),
             map (fun q => sadd (loc (param_distribution q))
                                (scale (param_distribution q)))
                 (moose_entries cfg))
    else Raise NotImplementedError.
Proof.
  unfold parameters_of_config.
  rewrite (for_each_entries (keys (apps cfg)) (read_app cfg)
             (fun k => match lookup (apps cfg) k with
                       | Some a =>
                           if is_moose a
                           then flat_map (fun block => values block)
                                         (values (uncertain_params a))
                           else []
                       | None => []
                       end)).
  - now rewrite <- moose_entries_by_key.
  - intros k s' Hk. destruct (keys_have_values _ _ Hk) as [a La].
    rewrite La. now apply read_app_entries.
Qed.

(** X1. The parser returns nothing but uniform entries, and all of
    them: whenever it returns, every entry it visited is uniform, and
    the three lists are the labels, [float(loc)] and
    [float(loc + scale)] of the visited entries, in visiting order. *)
Theorem returned_lists_are_the_visited_entries
    (files : string -> option (config R)) config_name names mins maxs :
  get_parameters_from_config files config_name = Ok (names, mins, maxs) ->
  exists cfg,
    files config_name = Some cfg /\
    Forall (fun q => name (param_distribution q) = "uniform"%string)
           (moose_entries cfg) /\
    names = map human_description (moose_entries cfg) /\
    mins = map (fun q => float (loc (param_distribution q)))
               (moose_entries cfg) /\
    maxs = map (fun q => float (sadd (loc (param_distribution q))
                                     (scale (param_distribution q))))
               (moose_entries cfg).
Proof.
  unfold get_parameters_from_config.
  destruct (files config_name) as [cfg|]; [|discriminate].
  rewrite parameters_of_config_run.
  destruct (forallb is_uniform (moose_entries cfg)) eqn:U; [|discriminate].
  intros E. injection E as <- <- <-.
  exists cfg. split; [reflexivity|]. split; [|now repeat split].
  apply Forall_forall. intros q Hq.
  rewrite forallb_forall in U. specialize (U q Hq).
  unfold is_uniform in U. now apply String.eqb_eq.
Qed.

(** X2. Whatever the parser returns, its three lists have the same
    length: one label, one lower and one upper bound per slider. *)
Theorem parameter_lists_same_length (files : string -> option (config R))
    config_name names mins maxs :
  get_parameters_from_config files config_name = Ok (names, mins, maxs) ->
  length names = length mins /\ length mins = length maxs.
Proof.
  unfold get_parameters_from_config.
  destruct (files config_name) as [cfg|]; [|discriminate].
  rewrite parameters_of_config_run.
  destruct (forallb is_uniform (moose_entries cfg)); [|discriminate].
  intros E. injection E as <- <- <-. now rewrite !length_map.
Qed.

(** X3. The unsupported-distribution error is never raised without
    cause: when the parser raises [NotImplementedError], the file was
    read and one of the entries it visits has a distribution that is
    not named "uniform". *)
Theorem not_implemented_has_a_cause (files : string -> option (config R))
    config_name :
  get_parameters_from_config files config_name
    = Raise NotImplementedError ->
  exists cfg q,
    files config_name = Some cfg /\
    In q (moose_entries cfg) /\
    name (param_distribution q) <> "uniform"%string.
Proof.
  unfold get_parameters_from_config.
  destruct (files config_name) as [cfg|]; [|discriminate].
  rewrite parameters_of_config_run.
  destruct (forallb is_uniform (moose_entries cfg)) eqn:U; [discriminate|].
  intros _.
  assert (X : exists q, In q (moose_entries cfg) /\ is_uniform q = false).
  { clear - U. induction (moose_entries cfg) as [|q qs IH];
      [discriminate|].
    cbn in U. destruct (is_uniform q) eqn:Uq.
    - destruct (IH U) as (q' & Hin & Hq'). exists q'. split; [now right|].
      exact Hq'.
    - exists q. split; [now left|exact Uq]. }
  destruct X as (q & Hin & Hq). exists cfg, q.
  split; [reflexivity|]. split; [exact Hin|].
  unfold is_uniform in Hq. intros Hn. rewrite Hn in Hq. discriminate.
Qed.

Lemma flat_map_snd {A B C} (f : B -> list C) (l : list (A * B)) :
  flat_map f (map snd l) = flat_map (fun kv => f (snd kv)) l.
Proof.
  induction l as [|kv l IH]; [reflexivity|]. cbn. now rewrite IH.
Qed.

Lemma flat_map_agree {A B} (f g : A -> list B) (l : list A) :
  Forall (fun x => f x = g x) l -> flat_map f l = flat_map g l.
Proof.
  induction 1 as [|x l Hx _ IH]; [reflexivity|]. cbn. now rewrite Hx, IH.
Qed.

Lemma moose_entries_file cfg :
  distinct_keys cfg -> moose_entries cfg = file_entries cfg.
Proof.
  intros [ND Happs]. unfold moose_entries, file_entries.
  rewrite (values_items _ ND), flat_map_snd.
  apply flat_map_agree.
  eapply Forall_impl; [|exact Happs].
  intros [k a] [NDa Hblocks]. cbn [snd] in *.
  destruct (is_moose a); [|reflexivity].
  rewrite (values_items _ NDa), flat_map_snd.
  apply flat_map_agree.
  eapply Forall_impl; [|exact Hblocks].
  intros [k' block] NDb. cbn [snd] in *. now apply values_items.
Qed.

(** X4. When no key occurs twice, the sliders come in the order of the
    file: if every parameter listed under a moose application is
    uniform, the parser returns their labels, lower and upper bounds
    application by application, block by block, parameter by
    parameter. *)
Theorem parameters_in_file_order cfg :
  distinct_keys cfg ->
  forallb is_uniform (file_entries cfg) = true ->
  parameters_of_config cfg
  = Ok (map human_description (file_entries cfg),
        map (fun q => loc (param_distribution q)) (file_entries cfg),
        map (fun q => sadd (loc (param_distribution q))
                           (scale (param_distribution q)))
            (file_entries cfg)).
Proof.
  intros Hwf Hu. rewrite parameters_of_config_run.
  rewrite (moose_entries_file Hwf), Hu. reflexivity.
Qed.

End ConfigCoverage.

Lemma parameter_lists_same_length_witness :
  length ["Conductivity"; "Heat capacity"]%string = length [10; 300]%Z /\
  length [10; 300]%Z = length [15; 400]%Z.
Proof.
  apply (@parameter_lists_same_length Z Z_Scalar
           (fun _ => Some Samples.mixed_config) "tmp_data/config.jsonc").
  reflexivity.
Defined.

Lemma not_implemented_has_a_cause_witness :
  exists q,
    In q (moose_entries Samples.normal_config) /\
    name (param_distribution q) <> "uniform"%string.
Proof.
  destruct (@not_implemented_has_a_cause Z Z_Scalar
              (fun _ => Some Samples.normal_config)
              "tmp_data/config.jsonc" eq_refl)
    as (cfg & q & E & Hin & Hq).
  injection E as <-. exists q. split; assumption.
Defined.

Lemma parameters_in_file_order_witness :
  parameters_of_config Samples.mixed_config
  = Ok (["Conductivity"; "Heat capacity"]%string, [10; 300]%Z, [15; 400]%Z).
Proof.
  apply (@parameters_in_file_order Z Z_Scalar Samples.mixed_config).
  - split.
    + cbn. constructor.
      * intros [E|[]]. discriminate E.
      * constructor; [intros []|constructor].
    + cbn. repeat constructor; cbn; intuition discriminate.
  - reflexivity.
Defined.

(* ===================================================================== *)
(** ** reconstruct_with_xgboost: mode counts and reductions              *)
(* ===================================================================== *)

Section ReconstructionCoverage.
Context {R : Type} `{Scalar R}.

Implicit Types (self : Reconstructor R) (t : R) (p : list R).

Lemma reconstruct_reduced self t p (f : list R -> result R) num_modes
    field :
  fst (reconstruct_with_xgboost t p None num_modes self)
    = Ok (FieldV field) ->
  fst (reconstruct_with_xgboost t p (Some f) num_modes self)
    = (x <- f field ;; Ok (ScalarV x)).
Proof.
  rewrite !reconstruct_value. cbv zeta.
  destruct (effective_modes self t p num_modes) as [m|e0]; cbn [Py.bind];
    [|discriminate].
  destruct (getslice _ m) as [coefs|e1]; cbn [Py.bind]; [|discriminate].
  destruct (morph_model _ _ _ coefs m) as [field0|e2]; cbn [Py.bind];
    [|discriminate].
  intros E. now injection E as ->.
Qed.

(** X5. A reduction is applied to the very field that the call
    without reduction returns, and it changes nothing about failures:
    an exception of the reconstruction is raised before the reduction
    is looked at. *)
Theorem reduction_applies_to_field self t p
    (f : list R -> result R) num_modes :
  (forall field,
     fst (reconstruct_with_xgboost t p None num_modes self)
       = Ok (FieldV field) ->
     fst (reconstruct_with_xgboost t p (Some f) num_modes self)
       = (x <- f field ;; Ok (ScalarV x))) /\
  (forall e,
     fst (reconstruct_with_xgboost t p None num_modes self) = Raise e ->
     fst (reconstruct_with_xgboost t p (Some f) num_modes self) = Raise e).
Proof.
  rewrite !reconstruct_value. cbv zeta.
  destruct (effective_modes self t p num_modes) as [m|e0]; cbn [Py.bind].
  - destruct (getslice _ m) as [coefs|e1]; cbn [Py.bind].
    + destruct (morph_model _ _ _ coefs m) as [field0|e2]; cbn [Py.bind].
      * split; [|discriminate].
        intros field E. now injection E as ->.
      * split; [discriminate|]. intros e E. exact E.
    + split; [discriminate|]. intros e E. exact E.
  - split; [discriminate|]. intros e E. exact E.
Qed.

(** X6. Asking for more modes than the regressor predicts is asking
    for all of them: any two requests at or above the number of
    predicted coefficients give the same result and leave the same
    object. *)
Theorem surplus_modes_change_nothing self t p reduction n n' :
  (Z.of_nat (length (emitted self t p)) <= n)%Z ->
  (Z.of_nat (length (emitted self t p)) <= n')%Z ->
  reconstruct_with_xgboost t p reduction n self
  = reconstruct_with_xgboost t p reduction n' self.
Proof.
  intros Hn Hn'.
  rewrite (surjective_pairing (reconstruct_with_xgboost t p reduction n self)).
  rewrite (surjective_pairing (reconstruct_with_xgboost t p reduction n' self)).
  rewrite !reconstruct_keeps_self, !reconstruct_value.
  f_equal. cbv zeta.
  assert (E : effective_modes self t p n = effective_modes self t p n').
  { destruct (Nat.eq_dec (length (emitted self t p)) 1) as [L1|L1].
    - now rewrite !effective_modes_scalar.
    - rewrite !effective_modes_vector by assumption. f_equal. lia. }
  now rewrite E.
Qed.

(** X7. A negative mode count is not refused.  It passes the clamp
    unchanged and, as a slice bound, drops that many coefficients from
    the end: with [L] predicted coefficients and [num_modes = -k], the
    basis expansion is called on the first [L - k] of them. *)
Theorem negative_modes_drop_trailing self t p num_modes :
  length (emitted self t p) <> 1 ->
  (num_modes < 0)%Z ->
  effective_modes self t p num_modes = Ok num_modes /\
  fst (reconstruct_with_xgboost t p None num_modes self)
  = (field <- morph_model (sam_obj self) (mean_dataset_columnvector self)
                (pca_model_components self)
                (Arr1 (firstn (length (emitted self t p)
                               - Z.to_nat (- num_modes))
                              (emitted self t p)))
                num_modes ;;
     Ok (FieldV field)).
Proof.
  intros HL Hn.
  assert (Hm : effective_modes self t p num_modes = Ok num_modes).
  { rewrite effective_modes_vector by assumption. f_equal. lia. }
  split; [exact Hm|].
  rewrite reconstruct_value, Hm. cbn [Py.bind].
  assert (Hs : forall cs : list R,
             slice_to cs num_modes
             = firstn (length cs - Z.to_nat (- num_modes)) cs).
  { intros cs. unfold slice_to.
    destruct (Z.leb_spec 0 num_modes); [lia|reflexivity]. }
  destruct (emitted self t p) as [|c [|c' cs]];
    [ | now contradiction HL | ]; cbn [getslice Py.bind]; rewrite Hs;
    now destruct (morph_model _ _ _ _ _).
Qed.

(** X8. Only the coefficients within the mode count matter: two
    regressors over the same basis whose predictions agree on the
    first [num_modes] coefficients reconstruct the same field, however
    they differ beyond. *)
Theorem trailing_coefficients_are_ignored self (b' : Booster R) t p
    reduction num_modes :
  let self' := {| xgb_model := b';
                  sam_obj := sam_obj self;
                  mean_dataset_columnvector := mean_dataset_columnvector self;
                  pca_model_components := pca_model_components self |} in
  (0 <= num_modes)%Z ->
  length (emitted self t p) <> 1 ->
  length (emitted self' t p) <> 1 ->
  (num_modes <= Z.of_nat (length (emitted self t p)))%Z ->
  (num_modes <= Z.of_nat (length (emitted self' t p)))%Z ->
  firstn (Z.to_nat num_modes) (emitted self t p)
  = firstn (Z.to_nat num_modes) (emitted self' t p) ->
  fst (reconstruct_with_xgboost t p reduction num_modes self)
  = fst (reconstruct_with_xgboost t p reduction num_modes self').
Proof.
  intros self' Hn HL HL' Hle Hle' Hpre.
  rewrite !reconstruct_value. cbv zeta.
  rewrite !effective_modes_vector by assumption.
  rewrite !Z.min_l by assumption. cbn [Py.bind].
  assert (Hs : forall cs : list R,
             slice_to cs num_modes = firstn (Z.to_nat num_modes) cs).
  { intros cs. unfold slice_to.
    destruct (Z.leb_spec 0 num_modes); [reflexivity|lia]. }
  assert (G : forall cs : list R, length cs <> 1 ->
            getslice match cs with
                     | [] => Arr1 []
                     | [c] => Arr0 c
                     | c :: c' :: cs' => Arr1 (c :: c' :: cs')
                     end num_modes
            = Ok (Arr1 (firstn (Z.to_nat num_modes) cs))).
  { intros [|c [|c' cs]] Hcs; [ | now contradiction Hcs | ];
      cbn [getslice]; now rewrite Hs. }
  rewrite (G _ HL), (G _ HL'), Hpre. reflexivity.
Qed.

End ReconstructionCoverage.

Lemma reduction_applies_to_field_witness :
  fst (reconstruct_with_xgboost 5%Z [1%Z] (Some amax) 2 Samples.two_modes)
  = Ok (ScalarV 3%Z).
Proof.
  exact (proj1 (@reduction_applies_to_field Z Z_Scalar Samples.two_modes
                  5%Z [1%Z] amax 2%Z) [2%Z; 3%Z] eq_refl).
Defined.

Lemma surplus_modes_change_nothing_witness :
  reconstruct_with_xgboost 5%Z [1%Z] None 2 Samples.two_modes
  = reconstruct_with_xgboost 5%Z [1%Z] None 1000000 Samples.two_modes.
Proof.
  apply (@surplus_modes_change_nothing Z Z_Scalar Samples.two_modes
           5%Z [1%Z] None 2%Z 1000000%Z).
  - cbn. lia.
  - cbn. lia.
Defined.

Lemma negative_modes_drop_trailing_witness :
  effective_modes Samples.two_modes 5%Z [1%Z] (-1) = Ok (-1)%Z /\
  fst (reconstruct_with_xgboost 5%Z [1%Z] None (-1) Samples.two_modes)
  = Ok (FieldV [2%Z; 0%Z]).
Proof.
  destruct (@negative_modes_drop_trailing Z Z_Scalar Samples.two_modes
              5%Z [1%Z] (-1)%Z) as [Hm Hrun].
  - cbn. discriminate.
  - reflexivity.
  - split; [exact Hm|]. rewrite Hrun. reflexivity.
Defined.

Lemma trailing_coefficients_are_ignored_witness :
  fst (reconstruct_with_xgboost 5%Z [1%Z] None 2 Samples.three_modes)
  = fst (reconstruct_with_xgboost 5%Z [1%Z] None 2 Samples.two_modes).
Proof.
  apply (@trailing_coefficients_are_ignored Z Z_Scalar Samples.three_modes
           (fun _ => [2%Z; 3%Z]) 5%Z [1%Z] None 2%Z).
  - lia.
  - cbn. discriminate.
  - cbn. discriminate.
  - cbn. lia.
  - cbn. lia.
  - reflexivity.
Defined.

Lemma returned_lists_are_the_visited_entries_witness :
  Forall (fun q => name (param_distribution q) = "uniform"%string)
         (moose_entries Samples.mixed_config) /\
  ["Conductivity"; "Heat capacity"]%string
  = map human_description (moose_entries Samples.mixed_config).
Proof.
  destruct (@returned_lists_are_the_visited_entries Z Z_Scalar
              (fun _ => Some Samples.mixed_config) "tmp_data/config.jsonc"
              ["Conductivity"; "Heat capacity"]%string [10; 300]%Z
              [15; 400]%Z eq_refl)
    as (cfg & E & Hu & Hn & _).
  injection E as <-. split; assumption.
Defined.

(* ===================================================================== *)
(** ** generate_data: what it returns and how it fails                   *)
(* ===================================================================== *)

Section GenerateCoverage.
Context {R : Type} `{Scalar R}.

Variables (coeff_list : list R) (num_modes : Z).

Implicit Types (model : Reconstructor R) (fs : filesystem R).

Lemma for_each_app {A S} (xs ys : list A) (body : A -> S -> result S) s :
  for_each (xs ++ ys) body s
  = (s' <- for_each xs body s ;; for_each ys body s').
Proof.
  revert s. induction xs as [|x xs IH]; intros s; [reflexivity|].
  cbn. destruct (body x s); cbn; [apply IH|reflexivity].
Qed.

(** The field and the maximum of a turn, read off the call. *)
Lemma turn_values model (ts : list Z) :
  (forall t, In t ts -> turn_succeeds coeff_list num_modes model t) ->
  exists (F : Z -> list R) (V : Z -> R),
    forall t, In t ts ->
      fst (reconstruct_with_xgboost (of_int t) coeff_list None num_modes
             model) = Ok (FieldV (F t)) /\
      amax (F t) = Ok (V t).
Proof.
  intros Hts.
  exists (fun t =>
            match fst (reconstruct_with_xgboost (of_int t) coeff_list None
                         num_modes model) with
            | Ok (FieldV field) => field
            | _ => []
            end).
  exists (fun t =>
            match fst (reconstruct_with_xgboost (of_int t) coeff_list None
                         num_modes model) with
            | Ok (FieldV (x :: xs)) => fold_left smax xs x
            | _ => szero
            end).
  intros t Ht. destruct (Hts t Ht) as (field & Hrun & Hne).
  rewrite Hrun. split; [reflexivity|].
  destruct field as [|x xs]; [contradiction|reflexivity].
Qed.

(** What [generate_data] returns, whenever it returns. *)
Lemma generate_data_returns fs xgb_file pod_file out :
  generate_data fs coeff_list xgb_file pod_file num_modes = Ok out ->
  exists model (F : Z -> list R) (V : Z -> R),
    Reconstructor_init fs xgb_file pod_file = Ok model /\
    (forall t, In t time_points ->
       fst (reconstruct_with_xgboost (of_int t) coeff_list None num_modes
              model) = Ok (FieldV (F t)) /\
       amax (F t) = Ok (V t)) /\
    out = (map (fun t => (of_int t, V t)) time_points, FieldV (F 60%Z)).
Proof.
  intros Hrun.
  destruct (generate_data_inv _ _ _ _ _ Hrun) as (model & Hinit & Hts).
  destruct (@turn_values model time_points Hts) as (F & V & HFV).
  exists model, F, V. split; [exact Hinit|]. split; [exact HFV|].
  erewrite generate_data_spec in Hrun by eassumption.
  now injection Hrun as <-.
Qed.

(** X9. Whenever [generate_data] returns, the series has twelve rows
    at the times 5, 10, ..., 60 and its last value is the maximum of
    the field returned beside it: the plot ends where the rendered
    field peaks. *)
Theorem series_ends_at_snapshot_max fs xgb_file pod_file tab snapshot :
  generate_data fs coeff_list xgb_file pod_file num_modes
    = Ok (tab, snapshot) ->
  length tab = 12 /\
  map fst tab = map of_int time_points /\
  value_max snapshot = Ok (snd (last tab (szero, szero))).
Proof.
  intros Hrun.
  destruct (generate_data_returns _ _ _ Hrun)
    as (model & F & V & _ & HFV & E).
  injection E as -> ->.
  split; [reflexivity|]. split; [reflexivity|].
  cbn [value_max]. apply HFV. unfold time_points. cbn. tauto.
Qed.

(** X10. The series is what the reduction argument would have given:
    every value that [generate_data] returns is the result of
    [reconstruct_with_xgboost] called with [reduction = max] at the
    time of its row. *)
Theorem series_is_reduced_reconstruction fs xgb_file pod_file tab
    snapshot :
  generate_data fs coeff_list xgb_file pod_file num_modes
    = Ok (tab, snapshot) ->
  exists model,
    Reconstructor_init fs xgb_file pod_file = Ok model /\
    Forall2 (fun t row =>
               fst (reconstruct_with_xgboost (of_int t) coeff_list
                      (Some amax) num_modes model)
               = Ok (ScalarV (snd row)))
            time_points tab.
Proof.
  intros Hrun.
  destruct (generate_data_returns _ _ _ Hrun)
    as (model & F & V & Hinit & HFV & E).
  apply (f_equal fst) in E. cbn [fst] in E. subst tab. clear Hrun.
  exists model. split; [exact Hinit|].
  revert HFV. generalize time_points as ts.
  induction ts as [|t ts IH]; intros HFV; cbn [map]; constructor.
  - destruct (HFV t (or_introl eq_refl)) as [Hf Hv].
    rewrite (reconstruct_reduced _ _ _ amax _ Hf), Hv. reflexivity.
  - apply IH. intros t' Ht'. apply HFV. now right.
Qed.

(** A loop that raises does so in one of its turns. *)
Lemma generate_loop_raises model (ts : list Z) e :
  forall out_temp d,
    for_each ts (generate_step coeff_list num_modes) (model, out_temp, d)
    = Raise e ->
    exists t, In t ts /\ turn_fails coeff_list num_modes model t e.
Proof.
  induction ts as [|t0 ts IH]; intros out_temp d Hrun; [discriminate|].
  cbn [for_each] in Hrun. unfold generate_step at 1 in Hrun.
  pose proof (reconstruct_keeps_self model (of_int t0) coeff_list None
                num_modes) as Hself.
  pose proof (@reconstruct_returns_field _ _ coeff_list num_modes model
                (of_int t0)) as Hfield.
  destruct (reconstruct_with_xgboost _ _ _ _ model) as [r model'] eqn:Erun.
  cbn [fst snd] in Hself, Hfield. subst model'.
  destruct r as [v|e0].
  - destruct (Hfield v eq_refl) as [field ->].
    cbn [Py.bind value_max] in Hrun.
    destruct field as [|x xs].
    + cbn in Hrun. injection Hrun as <-.
      exists t0. split; [now left|]. right. unfold turn_fails.
      now rewrite Erun.
    + cbn [amax Py.bind] in Hrun.
      destruct (IH _ _ Hrun) as (t & Ht & Hfail).
      exists t. split; [now right|exact Hfail].
  - cbn in Hrun. injection Hrun as <-.
    exists t0. split; [now left|]. left. now rewrite Erun.
Qed.

(** X11. [generate_data] fails only by loading or by one of its
    twelve turns: either the construction of the [Reconstructor]
    raises, or a reconstruction does, or a reconstructed field is
    empty and has no maximum.  Nothing after the loop can fail:
    [data_out] is bound and the two columns have the same length. *)
Theorem generate_data_errors fs xgb_file pod_file e :
  generate_data fs coeff_list xgb_file pod_file num_modes = Raise e ->
  Reconstructor_init fs xgb_file pod_file = Raise e \/
  exists model t,
    Reconstructor_init fs xgb_file pod_file = Ok model /\
    In t time_points /\
    turn_fails coeff_list num_modes model t e.
Proof.
  unfold generate_data.
  destruct (Reconstructor_init fs xgb_file pod_file) as [model|e0] eqn:Hinit;
    cbn [Py.bind]; [|intros E; injection E as <-; now left].
  rewrite arange_time_points. cbn [Py.bind].
  destruct (for_each _ _ _) as [s|e1] eqn:Hloop; cbn [Py.bind].
  - assert (Hts : forall t, In t time_points ->
                    turn_succeeds coeff_list num_modes model t).
    { eapply generate_loop_inv. exact Hloop. }
    destruct (@turn_values model time_points Hts) as (F & V & HFV).
    erewrite generate_loop in Hloop by eassumption.
    injection Hloop as <-. cbn. discriminate.
  - intros E. injection E as <-. right.
    destruct (generate_loop_raises _ _ _ _ Hloop) as (t & Ht & Hfail).
    now exists model, t.
Qed.

Lemma in_split_sorted (ts : list Z) t :
  StronglySorted Z.lt ts -> In t ts ->
  exists pre post, ts = pre ++ t :: post /\ forall t', In t' pre -> (t' < t)%Z.
Proof.
  induction 1 as [|t0 ts Hs IH Hlt]; intros Hin; [easy|].
  destruct (Z.eq_dec t0 t) as [->|NE].
  - exists [], ts. split; [reflexivity|easy].
  - destruct Hin as [E|Hin]; [contradiction|].
    destruct (IH Hin) as (pre & post & -> & Hpre).
    exists (t0 :: pre), post. split; [reflexivity|].
    intros t' [<-|Ht']; [|now apply Hpre].
    rewrite Forall_forall in Hlt. apply Hlt.
    apply in_or_app. right. now left.
Qed.

Lemma time_points_sorted : StronglySorted Z.lt time_points.
Proof.
  unfold time_points.
  repeat (constructor; [|repeat constructor; lia]). constructor.
Qed.

(** X12. The loop stops at the first turn that fails: when the
    artifacts load, every earlier time point reconstructs a non-empty
    field and the turn at [t] fails with [e], [generate_data] raises
    [e] and returns no part of the series. *)
Theorem first_failure_is_raised fs xgb_file pod_file model t e :
  Reconstructor_init fs xgb_file pod_file = Ok model ->
  In t time_points ->
  (forall t', In t' time_points -> (t' < t)%Z ->
     turn_succeeds coeff_list num_modes model t') ->
  turn_fails coeff_list num_modes model t e ->
  generate_data fs coeff_list xgb_file pod_file num_modes = Raise e.
Proof.
  intros Hinit Ht Hbefore Hfail. unfold generate_data.
  rewrite Hinit, arange_time_points. cbn [Py.bind].
  destruct (@in_split_sorted time_points t time_points_sorted Ht)
    as (pre & post & Esplit & Hpre).
  assert (Hok : forall t', In t' pre ->
                  turn_succeeds coeff_list num_modes model t').
  { intros t' Ht'. apply Hbefore; [|now apply Hpre].
    rewrite Esplit. apply in_or_app. now left. }
  destruct (@turn_values model pre Hok) as (F & V & HFV).
  rewrite Esplit, for_each_app.
  erewrite generate_loop by eassumption.
  cbn [Py.bind for_each]. unfold generate_step at 1.
  pose proof (reconstruct_keeps_self model (of_int t) coeff_list None
                num_modes) as Hself.
  unfold turn_fails in Hfail.
  destruct (reconstruct_with_xgboost _ _ _ _ model) as [r model'].
  cbn [snd] in Hself. subst model'.
  destruct Hfail as [Hr|[Hr ->]]; cbn [fst] in Hr; subst r; reflexivity.
Qed.

End GenerateCoverage.

Lemma series_ends_at_snapshot_max_witness :
  value_max (FieldV [60%Z; 3%Z]) = Ok 60%Z.
Proof.
  destruct (@series_ends_at_snapshot_max Z Z_Scalar [1%Z] 2%Z Samples.disk
              "xgb_model.bin" "pod_weights.npz"
              (map (fun t => (t, t)) time_points) (FieldV [60%Z; 3%Z])
              eq_refl) as (_ & _ & Hmax).
  exact Hmax.
Defined.

Lemma series_is_reduced_reconstruction_witness :
  exists model,
    Reconstructor_init Samples.disk "xgb_model.bin" "pod_weights.npz"
      = Ok model /\
    Forall2 (fun t row =>
               fst (reconstruct_with_xgboost t [1%Z] (Some amax) 2 model)
               = Ok (ScalarV (snd row)))
            time_points (map (fun t => (t, t)) time_points).
Proof.
  exact (@series_is_reduced_reconstruction Z Z_Scalar [1%Z] 2%Z Samples.disk
           "xgb_model.bin" "pod_weights.npz"
           (map (fun t => (t, t)) time_points) (FieldV [60%Z; 3%Z]) eq_refl).
Defined.

Lemma generate_data_errors_witness :
  generate_data Samples.pointless_disk [1%Z] "xgb_model.bin"
    "pod_weights.npz" 2 = Raise ValueError /\
  exists t, In t time_points /\
            turn_fails [1%Z] 2 Samples.pointless t ValueError.
Proof.
  split; [reflexivity|].
  destruct (@generate_data_errors Z Z_Scalar [1%Z] 2%Z Samples.pointless_disk
              "xgb_model.bin" "pod_weights.npz" ValueError eq_refl)
    as [E|(model & t & E & Ht & Hfail)].
  - discriminate E.
  - injection E as <-. exists t. split; assumption.
Defined.

Lemma first_failure_is_raised_witness :
  generate_data Samples.broken_disk [1%Z] "xgb_model.bin" "pod_weights.npz" 2
  = Raise TypeError.
Proof.
  apply (@first_failure_is_raised Z Z_Scalar [1%Z] 2%Z Samples.broken_disk
           "xgb_model.bin" "pod_weights.npz"
           (Samples.model_of Samples.breaks_at_30) 30%Z TypeError).
  - reflexivity.
  - cbn. tauto.
  - intros t' Hin Hlt. cbn in Hin.
    repeat (destruct Hin as [<-|Hin];
            [first [ lia | eexists; split;
                           [reflexivity|discriminate] ]|]).
    contradiction.
  - left. reflexivity.
Defined.
